(** * Moxie: a model of [src/include/moxie.h]

    The header is a family of C preprocessor macros that generate, for a
    function [FUNC], a state record, its accessors, a wrapped dispatcher and
    two adapters.  The development has two layers.

    - The macro layer.  Every macro of the header is a function from the
      tokens of its arguments to the tokens of its expansion.  A function
      receives its arguments macro-expanded, as the preprocessor expands
      the arguments of a call before it substitutes them; the operands of
      [#] and [##] are taken as they are.  A name built by [##] is looked
      up, by its spelling, in a table that lists the [#define]s of the
      header: when the name is there the macro is applied, when it is not
      the name stays in the output with the tokens that follow it.  The
      tokens a developer writes for a type, a parameter name or a
      function name are not themselves macro names.
    - The generated C code of the state record and of its accessors, as
      functions on a [MoxieState] record. *)

From Stdlib Require Import String Ascii List Bool Arith ZArith Lia.
From Stdlib Require Import DecimalString DecimalNat.
Import ListNotations.
Open Scope string_scope.
Open Scope list_scope.

(** ** Preprocessing tokens *)

Inductive token : Type :=
| Id (s : string)      (* identifier or keyword *)
| Num (s : string)     (* pp-number *)
| Punct (s : string)   (* punctuator *)
| Str (s : string)     (* string literal, without its quotes *)
| Chr (s : string).    (* character constant, without its quotes *)

Definition tokens := list token.

Definition LP : token := Punct "(".
Definition RP : token := Punct ")".
Definition Comma : token := Punct ",".
Definition Semi : token := Punct ";".

Definition spell (t : token) : string :=
  match t with
  | Id s | Num s | Punct s => s
  | Str s => String "034"%char (s ++ String "034"%char EmptyString)
  | Chr s => String "039"%char (s ++ String "039"%char EmptyString)
  end.

(** The spelling of a token sequence, one space between two tokens. *)
Fixpoint spelling (ts : tokens) : string :=
  match ts with
  | [] => ""
  | [t] => spell t
  | t :: ts' => spell t ++ " " ++ spelling ts'
  end.

Definition is_punct (p : string) (t : token) : bool :=
  match t with
  | Punct s => String.eqb s p
  | _ => false
  end.

(** [a ## b]: the spellings are concatenated and read again as one token.
    An identifier followed by an identifier or a number is an identifier, a
    number followed by either is a pp-number; other pairs do not give one
    token and both operands stay. *)
Definition paste (a b : token) : tokens :=
  match a, b with
  | Id x, Id y | Id x, Num y => [Id (x ++ y)]
  | Num x, Id y | Num x, Num y => [Num (x ++ y)]
  | _, _ => [a; b]
  end.

(** Arguments of a macro call, separated by commas. *)
Fixpoint commas (args : list tokens) : tokens :=
  match args with
  | [] => []
  | [a] => a
  | a :: args' => a ++ Comma :: commas args'
  end.

Definition call_tokens (args : list tokens) : tokens :=
  LP :: commas args ++ [RP].

(** Splitting the tokens of a call at the commas outside parentheses. *)
Fixpoint split_args_aux (depth : nat) (cur : tokens) (ts : tokens)
  : list tokens :=
  match ts with
  | [] => [rev cur]
  | t :: ts' =>
      if is_punct "," t && Nat.eqb depth 0 then
        rev cur :: split_args_aux 0 [] ts'
      else if is_punct "(" t then split_args_aux (S depth) (t :: cur) ts'
      else if is_punct ")" t then split_args_aux (pred depth) (t :: cur) ts'
      else split_args_aux depth (t :: cur) ts'
  end.

Definition split_args (ts : tokens) : list tokens := split_args_aux 0 [] ts.

(** [close_group depth inside ts]: the tokens up to the parenthesis that
    closes the group opened before [ts], and the tokens after it. *)
Fixpoint close_group (depth : nat) (inside : tokens) (ts : tokens)
  : option (tokens * tokens) :=
  match ts with
  | [] => None
  | t :: ts' =>
      if is_punct ")" t then
        match depth with
        | O => Some (rev inside, ts')
        | S d => close_group d (t :: inside) ts'
        end
      else if is_punct "(" t then close_group (S depth) (t :: inside) ts'
      else close_group depth (t :: inside) ts'
  end.

(** A parenthesised group at the head of [ts]: its arguments and the rest. *)
Definition take_group (ts : tokens) : option (list tokens * tokens) :=
  match ts with
  | t :: ts' =>
      if is_punct "(" t then
        match close_group 0 [] ts' with
        | Some (inside, rest) => Some (split_args inside, rest)
        | None => None
        end
      else None
  | [] => None
  end.

(** ** Macro tables *)

Inductive macro : Type :=
| ObjectLike (body : tokens)
| FunctionLike (body : list tokens -> tokens).

Fixpoint lookup {A : Type} (name : string) (env : list (string * A))
  : option A :=
  match env with
  | [] => None
  | (n, a) :: env' => if String.eqb n name then Some a else lookup name env'
  end.

Definition arg (i : nat) (args : list tokens) : tokens := nth i args [].

(** The variable arguments from position [i] on, with their commas. *)
Definition va_args (i : nat) (args : list tokens) : tokens :=
  commas (skipn i args).

(** Rescanning a replacement whose first token was just built: an
    object-like macro is replaced; a function-like macro is replaced when a
    parenthesised group follows it; any other name stays as it is. *)
Definition rescan_head (env : list (string * macro)) (ts : tokens) : tokens :=
  match ts with
  | Id m :: rest =>
      match lookup m env with
      | Some (ObjectLike body) => body ++ rest
      | Some (FunctionLike body) =>
          match take_group rest with
          | Some (args, rest') => body args ++ rest'
          | None => ts
          end
      | None => ts
      end
  | _ => ts
  end.

(** A macro called with arguments that are already separated. *)
Definition invoke (env : list (string * macro)) (name : string)
    (args : option (list tokens)) : tokens :=
  match lookup name env, args with
  | Some (ObjectLike body), Some a => body ++ call_tokens a
  | Some (ObjectLike body), None => body
  | Some (FunctionLike body), Some a => body a
  | Some (FunctionLike _), None => [Id name]
  | None, Some a => Id name :: call_tokens a
  | None, None => [Id name]
  end.

(** A replacement [ts] followed, in the caller, by a call group whose
    arguments [args] are already separated and expanded: the last token of
    [ts] is the name that is called. *)
Definition call_last (env : list (string * macro)) (ts : tokens)
    (args : list tokens) : tokens :=
  match rev ts with
  | Id m :: rinit => rev rinit ++ invoke env m (Some args)
  | _ => ts ++ call_tokens args
  end.

(** A name built by [##] at the head of [ts], then a call group. *)
Definition call (env : list (string * macro)) (ts : tokens)
    (args : list tokens) : tokens :=
  call_last env (rescan_head env ts) args.

(** ** Meta macros *)

(** [#define _M_STR(x) #x] *)
Definition _M_STR (x : tokens) : tokens := [Str (spelling x)].

(** [#define _M_PCAT(x,...) x ## __VA_ARGS__]: the last token of [x] is
    pasted to the first token of the variable arguments; an empty operand
    leaves the other one. *)
Definition _M_PCAT (x va : tokens) : tokens :=
  match rev x, va with
  | [], _ => va
  | _, [] => x
  | a :: rx, b :: va' => rev rx ++ paste a b ++ va'
  end.

(** [#define _M_DCAT(x,...) _M_PCAT(x,__VA_ARGS__)]: its arguments are
    macro-expanded before [_M_PCAT] sees them, which is how every function
    of this model receives its arguments. *)
Definition _M_DCAT (x va : tokens) : tokens := _M_PCAT x va.

(** [#define _M_PROBE(x) x, 1,] *)
Definition _M_PROBE (x : tokens) : tokens := x ++ [Comma; Num "1"; Comma].

(** [#define _M_CHECK_N(x,n,...) n] *)
Definition _M_CHECK_N (args : list tokens) : tokens := arg 1 args.

(** [#define _M_CHECK(...) _M_CHECK_N(__VA_ARGS__,0,)] *)
Definition _M_CHECK (va : tokens) : tokens :=
  _M_CHECK_N (split_args (va ++ [Comma; Num "0"; Comma])).

(** [#define _M_IS_PAREN_PROBE(...) _M_PROBE(~)] *)
Definition _M_IS_PAREN_PROBE (args : list tokens) : tokens :=
  _M_PROBE [Punct "~"].

(** [#define _M_IGNORE(...)] and [#define _M_EXPAND(...) __VA_ARGS__] *)
Definition _M_IGNORE (args : list tokens) : tokens := [].
Definition _M_EXPAND (args : list tokens) : tokens := va_args 0 args.

(** [#define _M_COMPARE_void(x) x] *)
Definition _M_COMPARE_void (args : list tokens) : tokens := arg 0 args.

(** The macros that the meta macros reach by pasting a name, and the two
    that are handed over by name ([_M_EXPAND], [_M_IGNORE]). *)
Definition meta_env : list (string * macro) :=
  [ ("_M_INC_0", ObjectLike [Num "1"]);
    ("_M_INC_1", ObjectLike [Num "2"]);
    ("_M_INC_2", ObjectLike [Num "3"]);
    ("_M_INC_3", ObjectLike [Num "4"]);
    ("_M_INC_4", ObjectLike [Num "5"]);
    ("_M_INC_5", ObjectLike [Num "6"]);
    ("_M_INC_6", ObjectLike [Num "7"]);
    ("_M_INC_7", ObjectLike [Num "8"]);
    ("_M_INC_8", ObjectLike [Num "9"]);
    ("_M_INC_9", ObjectLike [Num "10"]);
    ("_M_INC_10", ObjectLike [Num "11"]);
    ("_M_INC_11", ObjectLike [Num "12"]);
    ("_M_INC_12", ObjectLike [Num "13"]);
    ("_M_INC_13", ObjectLike [Num "14"]);
    ("_M_INC_14", ObjectLike [Num "15"]);
    ("_M_INC_15", ObjectLike [Num "16"]);
    ("_M_INC_16", ObjectLike [Num "17"]);
    ("_M_INC_17", ObjectLike [Num "18"]);
    ("_M_INC_18", ObjectLike [Num "19"]);
    ("_M_INC_19", ObjectLike [Num "20"]);
    ("_M_INC_20", ObjectLike [Num "21"]);
    ("_M_INC_21", ObjectLike [Num "22"]);
    ("_M_INC_22", ObjectLike [Num "23"]);
    ("_M_INC_23", ObjectLike [Num "24"]);
    ("_M_INC_24", ObjectLike [Num "25"]);
    ("_M_INC_25", ObjectLike [Num "26"]);
    ("_M_INC_26", ObjectLike [Num "27"]);
    ("_M_INC_27", ObjectLike [Num "28"]);
    ("_M_INC_28", ObjectLike [Num "29"]);
    ("_M_INC_29", ObjectLike [Num "30"]);
    ("_M_INC_30", ObjectLike [Num "31"]);
    ("_M_INC_31", ObjectLike [Num "31"]);
    ("_M_IF_0", FunctionLike (fun a => va_args 1 a));
    ("_M_IF_1", FunctionLike (fun a => arg 0 a));
    ("_M_NEGATE_0", ObjectLike [Num "1"]);
    ("_M_NEGATE_1", ObjectLike [Num "0"]);
    ("_M_NOT_0", ObjectLike (_M_PROBE [Punct "~"]));
    ("_M_AND_0", FunctionLike (fun a => [Num "0"]));
    ("_M_AND_1", FunctionLike (fun a => arg 0 a));
    ("_M_OR_0", FunctionLike (fun a => arg 0 a));
    ("_M_OR_1", FunctionLike (fun a => [Num "1"]));
    ("_M_COMPARE_void", FunctionLike _M_COMPARE_void);
    ("_M_IS_PAREN_PROBE", FunctionLike _M_IS_PAREN_PROBE);
    ("_M_EXPAND", FunctionLike _M_EXPAND);
    ("_M_IGNORE", FunctionLike _M_IGNORE) ].

(** [#define _M_INC(x) _M_PCAT(_M_INC_,x)] *)
Definition _M_INC (x : tokens) : tokens :=
  rescan_head meta_env (_M_PCAT [Id "_M_INC_"] x).

(** [#define _M_IS_PAREN(x) _M_CHECK(_M_IS_PAREN_PROBE x)] *)
Definition _M_IS_PAREN (x : tokens) : tokens :=
  _M_CHECK (rescan_head meta_env (Id "_M_IS_PAREN_PROBE" :: x)).

(** [#define _M_IF_(x) _M_PCAT(_M_IF_,x)]; the name it builds is called
    with the group that follows it in the caller. *)
Definition _M_IF_ (x : tokens) : tokens := _M_PCAT [Id "_M_IF_"] x.

(** [#define _M_NEGATE(x) _M_PCAT(_M_NEGATE,x)] *)
Definition _M_NEGATE (x : tokens) : tokens :=
  rescan_head meta_env (_M_PCAT [Id "_M_NEGATE"] x).

(** [#define _M_NOT(x) _M_CHECK(_M_PCAT(_M_NOT_,x))] *)
Definition _M_NOT (x : tokens) : tokens :=
  _M_CHECK (rescan_head meta_env (_M_PCAT [Id "_M_NOT_"] x)).

(** [#define _M_AND(x) _M_PCAT(_M_AND_,x)], called as [_M_AND(x)(y)]. *)
Definition _M_AND (x y : tokens) : tokens :=
  call meta_env (_M_PCAT [Id "_M_AND_"] x) [y].

(** [#define _M_IS_TRUE(x) _M_NEGATE(_M_NOT(x))] *)
Definition _M_IS_TRUE (x : tokens) : tokens := _M_NEGATE (_M_NOT x).

(** [#define _M_IF(p) _M_IF_(_M_IS_TRUE(p))], called as [_M_IF(p)(t,e)].
    The branches arrive expanded: they are expanded as arguments when the
    name built by [_M_IF_] is a macro, and in place, inside the group that
    stays, when it is not. *)
Definition _M_IF (p : tokens) (branches : list tokens) : tokens :=
  call meta_env (_M_IF_ (_M_IS_TRUE p)) branches.

(** [#define _M_WHEN(p) _M_IF(p)(_M_EXPAND,_M_IGNORE)], called as
    [_M_WHEN(p)(body)]. *)
Definition _M_WHEN (p : tokens) (body : list tokens) : tokens :=
  call_last meta_env (_M_IF p [[Id "_M_EXPAND"]; [Id "_M_IGNORE"]]) body.

(** [#define _M_IS_COMPARABLE(x) _M_IS_PAREN(_M_DCAT(_M_COMPARE_,x)(()))] *)
Definition _M_IS_COMPARABLE (x : tokens) : tokens :=
  _M_IS_PAREN
    (rescan_head meta_env (_M_DCAT [Id "_M_COMPARE_"] x ++ [LP; LP; RP; RP])).

(** [#define _M_NEQ_COMPARABLE(x,y)
       _M_IS_PAREN(_M_COMPARE_##x(_M_COMPARE_##y)(()))]:
    the call of [_M_COMPARE_x] leaves the name [_M_COMPARE_y]; when that
    is the macro being replaced it is not replaced again, otherwise it is
    called with the group [(())]. *)
Definition _M_NEQ_COMPARABLE (args : list tokens) : tokens :=
  let cx := _M_PCAT [Id "_M_COMPARE_"] (arg 0 args) in
  let cy := _M_PCAT [Id "_M_COMPARE_"] (arg 1 args) in
  let inner := call meta_env cx [cy] in
  _M_IS_PAREN
    (match cx, inner with
     | [Id mx], [Id my] =>
         if String.eqb mx my then inner ++ [LP; LP; RP; RP]
         else rescan_head meta_env (inner ++ [LP; LP; RP; RP])
     | _, _ => inner ++ [LP; LP; RP; RP]
     end).

Definition not_equal_env : list (string * macro) :=
  ("_M_NEQ_COMPARABLE", FunctionLike _M_NEQ_COMPARABLE) :: meta_env.

(** [#define _M_NOT_EQUAL(x,y)
       _M_IF_(_M_AND(_M_IS_COMPARABLE(x))(_M_IS_COMPARABLE(y)))
         (_M_NEQ_COMPARABLE,1 _M_IGNORE)(x,y)] *)
Definition _M_NOT_EQUAL (x y : tokens) : tokens :=
  call_last not_equal_env
    (call meta_env
       (_M_IF_ (_M_AND (_M_IS_COMPARABLE x) (_M_IS_COMPARABLE y)))
       [[Id "_M_NEQ_COMPARABLE"]; [Num "1"; Id "_M_IGNORE"]])
    [x; y].

(** [#define _M_EQUAL(x,y) _M_NEGATE(_M_NOT_EQUAL(x,y))] *)
Definition _M_EQUAL (x y : tokens) : tokens := _M_NEGATE (_M_NOT_EQUAL x y).

(** [#define _M_N_VA_ARGS_(_0,_1,...,_31,N,...) N] *)
Definition _M_N_VA_ARGS_ (args : list tokens) : tokens := arg 32 args.

(** [#define _M_N_VA_ARGS(...) _M_N_VA_ARGS_(__VA_ARGS__,31,30,...,1,0)];
    [va] holds the variable arguments, one entry per argument, and is
    never empty: a call without tokens has one empty argument. *)
Definition _M_N_VA_ARGS (va : list tokens) : tokens :=
  _M_N_VA_ARGS_
    (va ++ map (fun n => [Num n])
       ["31"; "30"; "29"; "28"; "27"; "26"; "25"; "24"; "23"; "22"; "21";
        "20"; "19"; "18"; "17"; "16"; "15"; "14"; "13"; "12"; "11"; "10";
        "9"; "8"; "7"; "6"; "5"; "4"; "3"; "2"; "1"; "0"]).

(** ** Type macros: parameters

    [#define M_PARAM_BOOL(PTYPE,PNAME) _M_DEFER(_BOOL)(PTYPE,PNAME)] and
    its siblings.  [#define _M_DEFER(...) __VA_ARGS__ _M_BLOCK(_M_EMPTY)()]
    leaves [_BOOL _M_EMPTY () (PTYPE,PNAME)] when the descriptor is first
    scanned and [_BOOL (PTYPE,PNAME)] when it is scanned again; every
    descriptor is scanned twice, as an argument of two nested calls,
    before a macro below pastes its own name in front of the suffix.
    [PTYPE] and [PNAME] are the tokens the developer wrote; [VA] of
    [M_PARAM_CUSTOM] is the code given after them. *)

Inductive param : Type :=
| M_PARAM_VOID
| M_PARAM_MS
| M_PARAM_MAC
| M_PARAM_BOOL (PTYPE PNAME : tokens)
| M_PARAM_INT (PTYPE PNAME : tokens)
| M_PARAM_UINT (PTYPE PNAME : tokens)
| M_PARAM_LONG (PTYPE PNAME : tokens)
| M_PARAM_ULONG (PTYPE PNAME : tokens)
| M_PARAM_DOUBLE (PTYPE PNAME : tokens)
| M_PARAM_CHAR_PTR (PTYPE PNAME : tokens)
| M_PARAM_IN_PTR (PTYPE PNAME : tokens)
| M_PARAM_OUT_PTR (PTYPE PNAME : tokens)
| M_PARAM_IN_TYPE_PTR (PTYPE PNAME : tokens)
| M_PARAM_OUT_TYPE_PTR (PTYPE PNAME : tokens)
| M_PARAM_IGNORE (PTYPE PNAME : tokens)
| M_PARAM_CUSTOM (PTYPE PNAME VA : tokens).

(** The suffix each descriptor hands to [_M_DEFER]. *)
Definition param_suffix (P : param) : string :=
  match P with
  | M_PARAM_VOID => "_VOID"
  | M_PARAM_MS => "_MS"
  | M_PARAM_MAC => "_MAC"
  | M_PARAM_BOOL _ _ => "_BOOL"
  | M_PARAM_INT _ _ => "_INT"
  | M_PARAM_UINT _ _ => "_UINT"
  | M_PARAM_LONG _ _ => "_LONG"
  | M_PARAM_ULONG _ _ => "_ULONG"
  | M_PARAM_DOUBLE _ _ => "_DOUBLE"
  | M_PARAM_CHAR_PTR _ _ => "_CHAR_PTR"
  | M_PARAM_IN_PTR _ _ => "_IN_PTR"
  | M_PARAM_OUT_PTR _ _ => "_OUT_PTR"
  | M_PARAM_IN_TYPE_PTR _ _ => "_IN_TYPE_PTR"
  | M_PARAM_OUT_TYPE_PTR _ _ => "_OUT_TYPE_PTR"
  | M_PARAM_IGNORE _ _ => "_IGNORE"
  | M_PARAM_CUSTOM _ _ _ => "_CUSTOM"
  end.

(** The arguments each descriptor hands over: [(void,)] for
    [M_PARAM_VOID], the mock-support parameters for [M_PARAM_MS] and
    [M_PARAM_MAC], the developer's own otherwise. *)
Definition param_args (P : param) : list tokens :=
  match P with
  | M_PARAM_VOID => [[Id "void"]; []]
  | M_PARAM_MS => [[Id "MockSupport_c"; Punct "*"]; [Id "mockSupport"]]
  | M_PARAM_MAC => [[Id "MockActualCall_c"; Punct "*"]; [Id "actualCall"]]
  | M_PARAM_BOOL PTYPE PNAME => [PTYPE; PNAME]
  | M_PARAM_INT PTYPE PNAME => [PTYPE; PNAME]
  | M_PARAM_UINT PTYPE PNAME => [PTYPE; PNAME]
  | M_PARAM_LONG PTYPE PNAME => [PTYPE; PNAME]
  | M_PARAM_ULONG PTYPE PNAME => [PTYPE; PNAME]
  | M_PARAM_DOUBLE PTYPE PNAME => [PTYPE; PNAME]
  | M_PARAM_CHAR_PTR PTYPE PNAME => [PTYPE; PNAME]
  | M_PARAM_IN_PTR PTYPE PNAME => [PTYPE; PNAME]
  | M_PARAM_OUT_PTR PTYPE PNAME => [PTYPE; PNAME]
  | M_PARAM_IN_TYPE_PTR PTYPE PNAME => [PTYPE; PNAME]
  | M_PARAM_OUT_TYPE_PTR PTYPE PNAME => [PTYPE; PNAME]
  | M_PARAM_IGNORE PTYPE PNAME => [PTYPE; PNAME]
  | M_PARAM_CUSTOM PTYPE PNAME VA => [PTYPE; PNAME; VA]
  end.

(** A macro argument that holds a descriptor, or no token at all. *)
Definition marg := option param.

Definition marg_tokens (P : marg) : tokens :=
  match P with
  | Some p => Id (param_suffix p) :: call_tokens (param_args p)
  | None => []
  end.

(** [actualCall->METHOD(ARGS);] *)
Definition actualCall_stmt (method : string) (args : list tokens) : tokens :=
  [Id "actualCall"; Punct "->"; Id method] ++ call_tokens args ++ [Semi].

(** The [_M_PARAM_TYPE_*], [_M_PARAM_NAME_*] and [_M_PARAM_CALLBACK_*]
    macros. *)
Definition param_env : list (string * macro) :=
  [ ("_M_PARAM_TYPE_VOID", FunctionLike (fun a => arg 0 a));
    ("_M_PARAM_TYPE_MS", FunctionLike (fun a => arg 0 a));
    ("_M_PARAM_TYPE_MAC", FunctionLike (fun a => arg 0 a));
    ("_M_PARAM_TYPE_BOOL", FunctionLike (fun a => arg 0 a));
    ("_M_PARAM_TYPE_INT", FunctionLike (fun a => arg 0 a));
    ("_M_PARAM_TYPE_UINT", FunctionLike (fun a => arg 0 a));
    ("_M_PARAM_TYPE_LONG", FunctionLike (fun a => arg 0 a));
    ("_M_PARAM_TYPE_ULONG", FunctionLike (fun a => arg 0 a));
    ("_M_PARAM_TYPE_DOUBLE", FunctionLike (fun a => arg 0 a));
    ("_M_PARAM_TYPE_CHAR_PTR", FunctionLike (fun a => arg 0 a));
    ("_M_PARAM_TYPE_IN_PTR", FunctionLike (fun a => arg 0 a));
    ("_M_PARAM_TYPE_OUT_PTR", FunctionLike (fun a => arg 0 a));
    ("_M_PARAM_TYPE_IN_TYPE_PTR", FunctionLike (fun a => arg 0 a));
    ("_M_PARAM_TYPE_OUT_TYPE_PTR", FunctionLike (fun a => arg 0 a));
    ("_M_PARAM_TYPE_IGNORE", FunctionLike (fun a => arg 0 a));
    ("_M_PARAM_TYPE_CUSTOM", FunctionLike (fun a => arg 0 a));
    ("_M_PARAM_NAME_VOID", FunctionLike (fun a => []));
    ("_M_PARAM_NAME_MS", FunctionLike (fun a => arg 1 a));
    ("_M_PARAM_NAME_MAC", FunctionLike (fun a => arg 1 a));
    ("_M_PARAM_NAME_BOOL", FunctionLike (fun a => arg 1 a));
    ("_M_PARAM_NAME_INT", FunctionLike (fun a => arg 1 a));
    ("_M_PARAM_NAME_UINT", FunctionLike (fun a => arg 1 a));
    ("_M_PARAM_NAME_LONG", FunctionLike (fun a => arg 1 a));
    ("_M_PARAM_NAME_ULONG", FunctionLike (fun a => arg 1 a));
    ("_M_PARAM_NAME_DOUBLE", FunctionLike (fun a => arg 1 a));
    ("_M_PARAM_NAME_CHAR_PTR", FunctionLike (fun a => arg 1 a));
    ("_M_PARAM_NAME_IN_PTR", FunctionLike (fun a => arg 1 a));
    ("_M_PARAM_NAME_OUT_PTR", FunctionLike (fun a => arg 1 a));
    ("_M_PARAM_NAME_IN_TYPE_PTR", FunctionLike (fun a => arg 1 a));
    ("_M_PARAM_NAME_OUT_TYPE_PTR", FunctionLike (fun a => arg 1 a));
    ("_M_PARAM_NAME_IGNORE", FunctionLike (fun a => arg 1 a));
    ("_M_PARAM_NAME_CUSTOM", FunctionLike (fun a => arg 1 a));
    ("_M_PARAM_CALLBACK_VOID", FunctionLike (fun a => []));
    ("_M_PARAM_CALLBACK_MS", FunctionLike (fun a => []));
    ("_M_PARAM_CALLBACK_MAC", FunctionLike (fun a => []));
    ("_M_PARAM_CALLBACK_BOOL",
     FunctionLike (fun a =>
       actualCall_stmt "withBoolParameters" [_M_STR (arg 1 a); arg 1 a]));
    ("_M_PARAM_CALLBACK_INT",
     FunctionLike (fun a =>
       actualCall_stmt "withIntParameters" [_M_STR (arg 1 a); arg 1 a]));
    ("_M_PARAM_CALLBACK_UINT",
     FunctionLike (fun a =>
       actualCall_stmt "withUnsignedIntParameters"
         [_M_STR (arg 1 a); arg 1 a]));
    ("_M_PARAM_CALLBACK_LONG",
     FunctionLike (fun a =>
       actualCall_stmt "withLongIntParameters" [_M_STR (arg 1 a); arg 1 a]));
    ("_M_PARAM_CALLBACK_ULONG",
     FunctionLike (fun a =>
       actualCall_stmt "withUnsignedLongIntParameters"
         [_M_STR (arg 1 a); arg 1 a]));
    ("_M_PARAM_CALLBACK_DOUBLE",
     FunctionLike (fun a =>
       actualCall_stmt "withDoubleParameters" [_M_STR (arg 1 a); arg 1 a]));
    ("_M_PARAM_CALLBACK_CHAR_PTR",
     FunctionLike (fun a =>
       actualCall_stmt "withStringParameters" [_M_STR (arg 1 a); arg 1 a]));
    ("_M_PARAM_CALLBACK_IN_PTR",
     FunctionLike (fun a =>
       actualCall_stmt "withPointerParameters" [_M_STR (arg 1 a); arg 1 a]));
    ("_M_PARAM_CALLBACK_OUT_PTR",
     FunctionLike (fun a =>
       actualCall_stmt "withOutputParameter" [_M_STR (arg 1 a); arg 1 a]));
    ("_M_PARAM_CALLBACK_IN_TYPE_PTR",
     FunctionLike (fun a =>
       actualCall_stmt "withParameterOfType"
         [_M_STR (arg 0 a); _M_STR (arg 1 a); arg 1 a]));
    ("_M_PARAM_CALLBACK_OUT_TYPE_PTR",
     FunctionLike (fun a =>
       actualCall_stmt "withOutputParameterOfType"
         [_M_STR (arg 0 a); _M_STR (arg 1 a); arg 1 a]));
    ("_M_PARAM_CALLBACK_IGNORE", FunctionLike (fun a => []));
    ("_M_PARAM_CALLBACK_CUSTOM", FunctionLike (fun a => va_args 2 a)) ].

(** [NAME##P] followed by the rest of [P]: the name is pasted to the
    suffix of the descriptor and called with its arguments; pasted to an
    empty argument it stays alone, and is the macro being replaced. *)
Definition paste_descriptor (env : list (string * macro)) (name : string)
    (P : marg) : tokens :=
  match P with
  | Some p =>
      match paste (Id name) (Id (param_suffix p)) with
      | [Id m] => invoke env m (Some (param_args p))
      | ts => ts ++ call_tokens (param_args p)
      end
  | None => [Id name]
  end.

(** [#define _M_PARAM_TYPE(P) _M_PARAM_TYPE##P] *)
Definition _M_PARAM_TYPE (P : marg) : tokens :=
  paste_descriptor param_env "_M_PARAM_TYPE" P.

(** [#define _M_PARAM_NAME(P) _M_PARAM_NAME##P] *)
Definition _M_PARAM_NAME (P : marg) : tokens :=
  paste_descriptor param_env "_M_PARAM_NAME" P.

(** [#define _M_PARAM_CALLBACK(P) _M_PARAM_CALLBACK##P] *)
Definition _M_PARAM_CALLBACK (P : marg) : tokens :=
  paste_descriptor param_env "_M_PARAM_CALLBACK" P.

(** ** Type macros: returns

    [#define M_RETURN_VOID _M_DEFER(_VOID)] has no arguments;
    [#define M_RETURN_BOOL(PTYPE) _M_DEFER(_BOOL)(PTYPE)] and its siblings
    have one, [M_RETURN_CUSTOM] also the code that produces the value. *)

Inductive ret : Type :=
| M_RETURN_VOID
| M_RETURN_BOOL (PTYPE : tokens)
| M_RETURN_INT (PTYPE : tokens)
| M_RETURN_UINT (PTYPE : tokens)
| M_RETURN_LONG (PTYPE : tokens)
| M_RETURN_ULONG (PTYPE : tokens)
| M_RETURN_DOUBLE (PTYPE : tokens)
| M_RETURN_CHAR_PTR (PTYPE : tokens)
| M_RETURN_PTR (PTYPE : tokens)
| M_RETURN_CUSTOM (PTYPE VA : tokens).

Definition ret_suffix (RET : ret) : string :=
  match RET with
  | M_RETURN_VOID => "_VOID"
  | M_RETURN_BOOL _ => "_BOOL"
  | M_RETURN_INT _ => "_INT"
  | M_RETURN_UINT _ => "_UINT"
  | M_RETURN_LONG _ => "_LONG"
  | M_RETURN_ULONG _ => "_ULONG"
  | M_RETURN_DOUBLE _ => "_DOUBLE"
  | M_RETURN_CHAR_PTR _ => "_CHAR_PTR"
  | M_RETURN_PTR _ => "_PTR"
  | M_RETURN_CUSTOM _ _ => "_CUSTOM"
  end.

Definition ret_args (RET : ret) : option (list tokens) :=
  match RET with
  | M_RETURN_VOID => None
  | M_RETURN_BOOL PTYPE => Some [PTYPE]
  | M_RETURN_INT PTYPE => Some [PTYPE]
  | M_RETURN_UINT PTYPE => Some [PTYPE]
  | M_RETURN_LONG PTYPE => Some [PTYPE]
  | M_RETURN_ULONG PTYPE => Some [PTYPE]
  | M_RETURN_DOUBLE PTYPE => Some [PTYPE]
  | M_RETURN_CHAR_PTR PTYPE => Some [PTYPE]
  | M_RETURN_PTR PTYPE => Some [PTYPE]
  | M_RETURN_CUSTOM PTYPE VA => Some [PTYPE; VA]
  end.

(** [return (PTYPE) actualCall->METHOD();] *)
Definition return_cast_stmt (PTYPE : tokens) (method : string) : tokens :=
  [Id "return"; LP] ++ PTYPE ++
  [RP; Id "actualCall"; Punct "->"; Id method; LP; RP; Semi].

(** The [_M_RETURN_TYPE_*] and [_M_RETURN_CALLBACK_*] macros. *)
Definition ret_env : list (string * macro) :=
  [ ("_M_RETURN_TYPE_VOID", ObjectLike [Id "void"]);
    ("_M_RETURN_TYPE_BOOL", FunctionLike (fun a => arg 0 a));
    ("_M_RETURN_TYPE_INT", FunctionLike (fun a => arg 0 a));
    ("_M_RETURN_TYPE_UINT", FunctionLike (fun a => arg 0 a));
    ("_M_RETURN_TYPE_LONG", FunctionLike (fun a => arg 0 a));
    ("_M_RETURN_TYPE_ULONG", FunctionLike (fun a => arg 0 a));
    ("_M_RETURN_TYPE_DOUBLE", FunctionLike (fun a => arg 0 a));
    ("_M_RETURN_TYPE_CHAR_PTR", FunctionLike (fun a => arg 0 a));
    ("_M_RETURN_TYPE_PTR", FunctionLike (fun a => arg 0 a));
    ("_M_RETURN_TYPE_CUSTOM", FunctionLike (fun a => arg 0 a));
    ("_M_RETURN_CALLBACK_VOID", ObjectLike [Id "return"; Semi]);
    ("_M_RETURN_CALLBACK_BOOL",
     FunctionLike (fun a => return_cast_stmt (arg 0 a) "boolReturnValue"));
    ("_M_RETURN_CALLBACK_INT",
     FunctionLike (fun a => return_cast_stmt (arg 0 a) "intReturnValue"));
    ("_M_RETURN_CALLBACK_UINT",
     FunctionLike (fun a =>
       return_cast_stmt (arg 0 a) "unsignedIntReturnValue"));
    ("_M_RETURN_CALLBACK_LONG",
     FunctionLike (fun a => return_cast_stmt (arg 0 a) "longIntReturnValue"));
    ("_M_RETURN_CALLBACK_ULONG",
     FunctionLike (fun a =>
       return_cast_stmt (arg 0 a) "unsignedLongIntReturnValue"));
    ("_M_RETURN_CALLBACK_DOUBLE",
     FunctionLike (fun a => return_cast_stmt (arg 0 a) "doubleReturnValue"));
    ("_M_RETURN_CALLBACK_CHAR_PTR",
     FunctionLike (fun a => return_cast_stmt (arg 0 a) "stringReturnValue"));
    ("_M_RETURN_CALLBACK_PTR",
     FunctionLike (fun a => return_cast_stmt (arg 0 a) "pointerReturnValue"));
    ("_M_RETURN_CALLBACK_CUSTOM", FunctionLike (fun a => va_args 1 a)) ].

(** [NAME##RET] followed by the rest of [RET]. *)
Definition paste_ret (name : string) (RET : ret) : tokens :=
  match paste (Id name) (Id (ret_suffix RET)) with
  | [Id m] => invoke ret_env m (ret_args RET)
  | ts => ts ++ match ret_args RET with
                | Some a => call_tokens a
                | None => []
                end
  end.

(** [#define _M_RETURN_TYPE(RET) _M_RETURN_TYPE_##RET] *)
Definition _M_RETURN_TYPE (RET : ret) : tokens :=
  paste_ret "_M_RETURN_TYPE_" RET.

(** [#define _M_RETURN_CALLBACK(RET) _M_RETURN_CALLBACK_##RET] *)
Definition _M_RETURN_CALLBACK (RET : ret) : tokens :=
  paste_ret "_M_RETURN_CALLBACK_" RET.

(** [#define _M_RETURN(RET)
       _M_WHEN(_M_NOT_EQUAL(_M_RETURN_TYPE(RET),void))(return)] *)
Definition _M_RETURN (RET : ret) : tokens :=
  _M_WHEN (_M_NOT_EQUAL (_M_RETURN_TYPE RET) [Id "void"]) [[Id "return"]].

(** [#define _M_RETURN_FUNC_IMPL(RET) _M_RETURN_CALLBACK(RET)] *)
Definition _M_RETURN_FUNC_IMPL (RET : ret) : tokens := _M_RETURN_CALLBACK RET.

(** ** The arity dispatcher *)

(** A per-parameter macro [CALLBACK(FUNC,INDEX,P)]. *)
Definition callback := string -> tokens -> marg -> tokens.

(** [#define _M_PARAM_DECLARATION_TAIL(FUNC,INDEX,P)
       _M_PARAM_TYPE(P) _M_PARAM_NAME(P)] *)
Definition _M_PARAM_DECLARATION_TAIL : callback :=
  fun FUNC INDEX P => _M_PARAM_TYPE P ++ _M_PARAM_NAME P.

(** [#define _M_PARAM_DECLARATION(FUNC,INDEX,P)
       _M_PARAM_TYPE(P) _M_PARAM_NAME(P),] *)
Definition _M_PARAM_DECLARATION : callback :=
  fun FUNC INDEX P => _M_PARAM_TYPE P ++ _M_PARAM_NAME P ++ [Comma].

(** [#define _M_PARAM_PROTOTYPE_TAIL(FUNC,INDEX,P) _M_PARAM_TYPE(P)] *)
Definition _M_PARAM_PROTOTYPE_TAIL : callback :=
  fun FUNC INDEX P => _M_PARAM_TYPE P.

(** [#define _M_PARAM_PROTOTYPE(FUNC,INDEX,P) _M_PARAM_TYPE(P),] *)
Definition _M_PARAM_PROTOTYPE : callback :=
  fun FUNC INDEX P => _M_PARAM_TYPE P ++ [Comma].

(** [#define _M_PARAM_CALL_TAIL(FUNC,INDEX,P) _M_PARAM_NAME(P)] *)
Definition _M_PARAM_CALL_TAIL : callback :=
  fun FUNC INDEX P => _M_PARAM_NAME P.

(** [#define _M_PARAM_CALL(FUNC,INDEX,P) _M_PARAM_NAME(P),] *)
Definition _M_PARAM_CALL : callback :=
  fun FUNC INDEX P => _M_PARAM_NAME P ++ [Comma].

(** [#define _M_PARAM_FUNC_IMPL_TAIL(FUNC,INDEX,P) _M_PARAM_CALLBACK(P)] *)
Definition _M_PARAM_FUNC_IMPL_TAIL : callback :=
  fun FUNC INDEX P => _M_PARAM_CALLBACK P.

(** [#define _M_PARAM_FUNC_IMPL(FUNC,INDEX,P) _M_PARAM_CALLBACK(P)] *)
Definition _M_PARAM_FUNC_IMPL : callback :=
  fun FUNC INDEX P => _M_PARAM_CALLBACK P.

Definition callback_env : list (string * callback) :=
  [ ("_M_PARAM_DECLARATION_TAIL", _M_PARAM_DECLARATION_TAIL);
    ("_M_PARAM_DECLARATION", _M_PARAM_DECLARATION);
    ("_M_PARAM_PROTOTYPE_TAIL", _M_PARAM_PROTOTYPE_TAIL);
    ("_M_PARAM_PROTOTYPE", _M_PARAM_PROTOTYPE);
    ("_M_PARAM_CALL_TAIL", _M_PARAM_CALL_TAIL);
    ("_M_PARAM_CALL", _M_PARAM_CALL);
    ("_M_PARAM_FUNC_IMPL_TAIL", _M_PARAM_FUNC_IMPL_TAIL);
    ("_M_PARAM_FUNC_IMPL", _M_PARAM_FUNC_IMPL) ].

(** [CALLBACK(FUNC,INDEX,P)] for the macro called [CALLBACK]; a name that
    is no macro stays, with its group. *)
Definition invoke_callback (CALLBACK : string) : callback :=
  fun FUNC INDEX P =>
    match lookup CALLBACK callback_env with
    | Some f => f FUNC INDEX P
    | None => Id CALLBACK :: call_tokens [[Id FUNC]; INDEX; marg_tokens P]
    end.

(** A template [_M_PARAMS_n(CALLBACK,FUNC,INDEX,P,...)]: [va] holds [P]
    and the variable arguments after it. *)
Definition template := string -> string -> tokens -> list marg -> tokens.

(** The argument [P] of a template and its [__VA_ARGS__]. *)
Definition first_arg (va : list marg) : marg := hd None va.
Definition rest_args (va : list marg) : list marg := tl va.

(** [#define _M_PARAMS_0(CALLBACK,FUNC,INDEX,P,...)
       _M_PCAT(CALLBACK,_TAIL)(FUNC,INDEX,P)] *)
Definition _M_PARAMS_0 : template :=
  fun CALLBACK FUNC INDEX va =>
    match _M_PCAT [Id CALLBACK] [Id "_TAIL"] with
    | [Id tail] => invoke_callback tail FUNC INDEX (first_arg va)
    | ts => ts ++ call_tokens [[Id FUNC]; INDEX; marg_tokens (first_arg va)]
    end.

(** The shape of every other template but [_M_PARAMS_8]:
    [CALLBACK(FUNC,INDEX,P)
       _M_PARAMS_m(CALLBACK,FUNC,_M_INC(INDEX),__VA_ARGS__)]
    where [_M_PARAMS_m] is the template [next]. *)
Definition params_then (next : template) : template :=
  fun CALLBACK FUNC INDEX va =>
    invoke_callback CALLBACK FUNC INDEX (first_arg va)
    ++ next CALLBACK FUNC (_M_INC INDEX) (rest_args va).

Definition _M_PARAMS_1 : template := params_then _M_PARAMS_0.
Definition _M_PARAMS_2 : template := params_then _M_PARAMS_1.
Definition _M_PARAMS_3 : template := params_then _M_PARAMS_2.
Definition _M_PARAMS_4 : template := params_then _M_PARAMS_3.
Definition _M_PARAMS_5 : template := params_then _M_PARAMS_4.
Definition _M_PARAMS_6 : template := params_then _M_PARAMS_5.
Definition _M_PARAMS_7 : template := params_then _M_PARAMS_6.

(** [#define _M_PARAMS_8(CALLBACK,FUNC,INDEX,P,...)
       CALLBACK(FUNC,INDEX,P)
       _M_PARAMS_7CALLBACK,FUNC,_M_INC(INDEX),__VA_ARGS__)]:
    no parenthesis opens after [_M_PARAMS_7], so [_M_PARAMS_7CALLBACK] is
    one identifier, and the tokens after it stay. *)
Definition _M_PARAMS_8 : template :=
  fun CALLBACK FUNC INDEX va =>
    invoke_callback CALLBACK FUNC INDEX (first_arg va)
    ++ [Id "_M_PARAMS_7CALLBACK"; Comma; Id FUNC; Comma]
    ++ _M_INC INDEX
    ++ [Comma] ++ commas (map marg_tokens (rest_args va)) ++ [RP].

Definition _M_PARAMS_9 : template := params_then _M_PARAMS_8.
Definition _M_PARAMS_10 : template := params_then _M_PARAMS_9.
Definition _M_PARAMS_11 : template := params_then _M_PARAMS_10.
Definition _M_PARAMS_12 : template := params_then _M_PARAMS_11.
Definition _M_PARAMS_13 : template := params_then _M_PARAMS_12.
Definition _M_PARAMS_14 : template := params_then _M_PARAMS_13.
Definition _M_PARAMS_15 : template := params_then _M_PARAMS_14.
Definition _M_PARAMS_16 : template := params_then _M_PARAMS_15.
Definition _M_PARAMS_17 : template := params_then _M_PARAMS_16.
Definition _M_PARAMS_18 : template := params_then _M_PARAMS_17.
Definition _M_PARAMS_19 : template := params_then _M_PARAMS_18.
Definition _M_PARAMS_20 : template := params_then _M_PARAMS_19.
Definition _M_PARAMS_21 : template := params_then _M_PARAMS_20.
Definition _M_PARAMS_22 : template := params_then _M_PARAMS_21.
Definition _M_PARAMS_23 : template := params_then _M_PARAMS_22.
Definition _M_PARAMS_24 : template := params_then _M_PARAMS_23.
Definition _M_PARAMS_25 : template := params_then _M_PARAMS_24.
Definition _M_PARAMS_26 : template := params_then _M_PARAMS_25.
Definition _M_PARAMS_27 : template := params_then _M_PARAMS_26.
Definition _M_PARAMS_28 : template := params_then _M_PARAMS_27.
Definition _M_PARAMS_29 : template := params_then _M_PARAMS_28.
Definition _M_PARAMS_30 : template := params_then _M_PARAMS_29.
Definition _M_PARAMS_31 : template := params_then _M_PARAMS_30.

Definition params_env : list (string * template) :=
  [ ("_M_PARAMS_0", _M_PARAMS_0);
    ("_M_PARAMS_1", _M_PARAMS_1);
    ("_M_PARAMS_2", _M_PARAMS_2);
    ("_M_PARAMS_3", _M_PARAMS_3);
    ("_M_PARAMS_4", _M_PARAMS_4);
    ("_M_PARAMS_5", _M_PARAMS_5);
    ("_M_PARAMS_6", _M_PARAMS_6);
    ("_M_PARAMS_7", _M_PARAMS_7);
    ("_M_PARAMS_8", _M_PARAMS_8);
    ("_M_PARAMS_9", _M_PARAMS_9);
    ("_M_PARAMS_10", _M_PARAMS_10);
    ("_M_PARAMS_11", _M_PARAMS_11);
    ("_M_PARAMS_12", _M_PARAMS_12);
    ("_M_PARAMS_13", _M_PARAMS_13);
    ("_M_PARAMS_14", _M_PARAMS_14);
    ("_M_PARAMS_15", _M_PARAMS_15);
    ("_M_PARAMS_16", _M_PARAMS_16);
    ("_M_PARAMS_17", _M_PARAMS_17);
    ("_M_PARAMS_18", _M_PARAMS_18);
    ("_M_PARAMS_19", _M_PARAMS_19);
    ("_M_PARAMS_20", _M_PARAMS_20);
    ("_M_PARAMS_21", _M_PARAMS_21);
    ("_M_PARAMS_22", _M_PARAMS_22);
    ("_M_PARAMS_23", _M_PARAMS_23);
    ("_M_PARAMS_24", _M_PARAMS_24);
    ("_M_PARAMS_25", _M_PARAMS_25);
    ("_M_PARAMS_26", _M_PARAMS_26);
    ("_M_PARAMS_27", _M_PARAMS_27);
    ("_M_PARAMS_28", _M_PARAMS_28);
    ("_M_PARAMS_29", _M_PARAMS_29);
    ("_M_PARAMS_30", _M_PARAMS_30);
    ("_M_PARAMS_31", _M_PARAMS_31) ].

(** The variable arguments of a call, one entry per argument: a call
    without any token has one empty argument. *)
Definition variadic (va : list marg) : list marg :=
  match va with
  | [] => [None]
  | _ => va
  end.

(** [#define _M_PARAMS(CALLBACK,FUNC,...)
       _M_DCAT(_M_PARAMS_,_M_N_VA_ARGS(__VA_ARGS__))
         (CALLBACK,FUNC,0,__VA_ARGS__)] *)
Definition _M_PARAMS (CALLBACK FUNC : string) (va : list marg) : tokens :=
  let va := variadic va in
  let name := _M_DCAT [Id "_M_PARAMS_"] (_M_N_VA_ARGS (map marg_tokens va)) in
  let group :=
    call_tokens
      ([Id CALLBACK] :: [Id FUNC] :: [Num "0"] :: map marg_tokens va) in
  match name with
  | [Id m] =>
      match lookup m params_env with
      | Some t => t CALLBACK FUNC [Num "0"] va
      | None => name ++ group
      end
  | _ => name ++ group
  end.

(** [#define _M_PARAMS_DECLARATION(FUNC,...)
       _M_PARAMS(_M_PARAM_DECLARATION,FUNC,__VA_ARGS__)] *)
Definition _M_PARAMS_DECLARATION (FUNC : string) (va : list marg) : tokens :=
  _M_PARAMS "_M_PARAM_DECLARATION" FUNC va.

(** [#define _M_PARAMS_PROTOTYPE(FUNC,...)
       _M_PARAMS(_M_PARAM_PROTOTYPE,FUNC,__VA_ARGS__)] *)
Definition _M_PARAMS_PROTOTYPE (FUNC : string) (va : list marg) : tokens :=
  _M_PARAMS "_M_PARAM_PROTOTYPE" FUNC va.

(** [#define _M_PARAMS_CALL(FUNC,...)
       _M_PARAMS(_M_PARAM_CALL,FUNC,__VA_ARGS__)] *)
Definition _M_PARAMS_CALL (FUNC : string) (va : list marg) : tokens :=
  _M_PARAMS "_M_PARAM_CALL" FUNC va.

(** [#define _M_PARAMS_FUNC_IMPL(FUNC,...)
       _M_PARAMS(_M_PARAM_FUNC_IMPL,FUNC,__VA_ARGS__)] *)
Definition _M_PARAMS_FUNC_IMPL (FUNC : string) (va : list marg) : tokens :=
  _M_PARAMS "_M_PARAM_FUNC_IMPL" FUNC va.

(** The three mock projections share one shape,
    [_M_IF(_M_EQUAL(_M_PARAM_TYPE(P),void))(
       _M_PARAMS(CALLBACK,FUNC,M_PARAM_MS,M_PARAM_MAC),
       _M_PARAMS(CALLBACK,FUNC,M_PARAM_MS,M_PARAM_MAC,P,##__VA_ARGS__))],
    with [P] the first descriptor. *)
Definition params_mock (CALLBACK FUNC : string) (va : list marg) : tokens :=
  let P := first_arg va in
  _M_IF (_M_EQUAL (_M_PARAM_TYPE P) [Id "void"])
    [ _M_PARAMS CALLBACK FUNC [Some M_PARAM_MS; Some M_PARAM_MAC];
      _M_PARAMS CALLBACK FUNC
        (Some M_PARAM_MS :: Some M_PARAM_MAC :: P :: rest_args va) ].

(** [#define _M_PARAMS_MOCK_DECLARATION(FUNC,P,...)] *)
Definition _M_PARAMS_MOCK_DECLARATION (FUNC : string) (va : list marg)
  : tokens := params_mock "_M_PARAM_DECLARATION" FUNC va.

(** [#define _M_PARAMS_MOCK_PROTOTYPE(FUNC,P,...)] *)
Definition _M_PARAMS_MOCK_PROTOTYPE (FUNC : string) (va : list marg)
  : tokens := params_mock "_M_PARAM_PROTOTYPE" FUNC va.

(** [#define _M_PARAMS_MOCK_CALL(FUNC,P,...)] *)
Definition _M_PARAMS_MOCK_CALL (FUNC : string) (va : list marg)
  : tokens := params_mock "_M_PARAM_CALL" FUNC va.

(** ** API functions

    [#define Moxie_reset(FUNC) __mReset_#FUNC] and its four siblings: in
    the replacement list a single [#] before the parameter is the
    stringizing operator, so the replacement is the identifier before it
    followed by the string literal made of the argument. *)

Definition Moxie_reset (FUNC : string) : tokens :=
  [Id "__mReset_"] ++ _M_STR [Id FUNC].

Definition Moxie_enable (FUNC : string) : tokens :=
  [Id "__mEnable_"] ++ _M_STR [Id FUNC].

Definition Moxie_setScope (FUNC : string) : tokens :=
  [Id "__mSetScope_"] ++ _M_STR [Id FUNC].

Definition Moxie_setCallFunc (FUNC : string) : tokens :=
  [Id "__mSetCallFunc_"] ++ _M_STR [Id FUNC].

Definition Moxie_setStubFunc (FUNC : string) : tokens :=
  [Id "__mSetStubFunc_"] ++ _M_STR [Id FUNC].

(** [#define M_REAL_FUNC(FUNC) __real_##FUNC] and
    [#define M_MOCK_FUNC(FUNC) __wrap_##FUNC] *)
Definition M_REAL_FUNC (FUNC : string) : tokens :=
  paste (Id "__real_") (Id FUNC).

Definition M_MOCK_FUNC (FUNC : string) : tokens :=
  paste (Id "__wrap_") (Id FUNC).

(** ** Implementation macros

    In the replacement lists below [NAME_##FUNC] is the identifier whose
    spelling is [NAME_] followed by the spelling of [FUNC]. *)

(** [#ifndef Assert] [#define Assert(c,...)] [#endif]: the header's own
    [Assert] has an empty replacement list. *)
Definition Assert_default (args : list tokens) : tokens := [].

Section Generators.

(** The [Assert] macro in force where the header is included, and
    whether [__darwin__] is defined there. *)
Variable Assert : list tokens -> tokens.
Variable darwin : bool.

(** [#define _M_DECLARE_MOCK(RET,FUNC,...)] *)
Definition _M_DECLARE_MOCK (RET : ret) (FUNC : string) (va : list marg)
  : tokens :=
  [Id "typedef"; Id "void"; LP; Punct "*"; Id ("MoxieCallFunc_" ++ FUNC);
   RP; LP]
  ++ _M_PARAMS_MOCK_PROTOTYPE FUNC va
  ++ [RP; Semi; Id "typedef"]
  ++ _M_RETURN_TYPE RET
  ++ [LP; Punct "*"; Id ("MoxieStubFunc_" ++ FUNC); RP; LP]
  ++ _M_PARAMS_MOCK_PROTOTYPE FUNC va
  ++ [RP; Semi; Id "extern"; Id "void"; Id ("__mReset_" ++ FUNC); LP;
   Id "void"; RP; Semi; Id "extern"; Id "void"; Id ("__mEnable_" ++ FUNC);
   LP; Id "void"; RP; Semi; Id "extern"; Id "void";
   Id ("__mSetScope_" ++ FUNC); LP; Id "const"; Id "char"; Punct "*"; RP;
   Semi; Id "extern"; Id "void"; Id ("__mSetCallFunc_" ++ FUNC); LP;
   Id ("MoxieCallFunc_" ++ FUNC); RP; Semi; Id "extern"; Id "void";
   Id ("__mSetStubFunc_" ++ FUNC); LP; Id ("MoxieStubFunc_" ++ FUNC); RP;
   Semi; Id "extern"]
  ++ _M_RETURN_TYPE RET
  ++ [Id ("__real_" ++ FUNC); LP]
  ++ _M_PARAMS_PROTOTYPE FUNC va
  ++ [RP; Semi; Id "extern"]
  ++ _M_RETURN_TYPE RET
  ++ [Id ("__wrap_" ++ FUNC); LP]
  ++ _M_PARAMS_PROTOTYPE FUNC va
  ++ [RP; Semi; Id "extern"; Id "void"; Id ("__mCallFunc_" ++ FUNC); LP]
  ++ _M_PARAMS_MOCK_PROTOTYPE FUNC va
  ++ [RP; Semi; Id "extern"]
  ++ _M_RETURN_TYPE RET
  ++ [Id ("__mStubFunc_" ++ FUNC); LP]
  ++ _M_PARAMS_MOCK_PROTOTYPE FUNC va
  ++ [RP; Semi].

(** [#define _M_IMPLEMENT_MOCK_PREFACE(RET,FUNC,...)]: the state record
    and its five accessors. *)
Definition _M_IMPLEMENT_MOCK_PREFACE (RET : ret) (FUNC : string)
    (va : list marg) : tokens :=
  [Id "static"; Id "MoxieState"; Id ("__mState_" ++ FUNC); Punct "=";
   Punct "{"; Punct "."; Id "mockFlag"; Punct "="; Num "0"; Comma;
   Punct "."; Id "scope"; Punct "="; Str ""; Comma; Punct ".";
   Id "callFunc"; Punct "="; Punct "&"; Id ("__mCallFunc_" ++ FUNC); Comma;
   Punct "."; Id "stubFunc"; Punct "="; Punct "&";
   Id ("__mStubFunc_" ++ FUNC); Comma; Punct "}"; Semi; Id "void";
   Id ("__mReset_" ++ FUNC); LP; Id "void"; RP; Punct "{";
   Id ("__mState_" ++ FUNC); Punct "."; Id "mockFlag"; Punct "="; Num "0";
   Semi; Id ("__mState_" ++ FUNC); Punct "."; Id "scope"; Punct "="; Str "";
   Semi; Id ("__mState_" ++ FUNC); Punct "."; Id "callFunc"; Punct "=";
   Punct "&"; Id ("__mCallFunc_" ++ FUNC); Semi; Id ("__mState_" ++ FUNC);
   Punct "."; Id "stubFunc"; Punct "="; Punct "&";
   Id ("__mStubFunc_" ++ FUNC); Semi; Punct "}"; Id "void";
   Id ("__mEnable_" ++ FUNC); LP; Id "void"; RP; Punct "{";
   Id ("__mState_" ++ FUNC); Punct "."; Id "mockFlag"; Punct "="; Num "1";
   Semi; Punct "}"; Id "void"; Id ("__mSetScope_" ++ FUNC); LP; Id "const";
   Id "char"; Punct "*"; Id "scope"; RP; Punct "{"]
  ++ Assert [[Id ("__mState_" ++ FUNC); Punct "."; Id "mockFlag"]]
  ++ [Semi; Id ("__mState_" ++ FUNC); Punct "."; Id "scope"; Punct "="; LP;
   Id "char"; Punct "*"; RP; Id "scope"; Semi; Punct "}";
   Id ("__mSetCallFunc_" ++ FUNC); LP; Id ("MoxieCallFunc_" ++ FUNC);
   Id "callFunc"; RP; Punct "{"]
  ++ Assert [[Id ("__mState_" ++ FUNC); Punct "."; Id "mockFlag"]]
  ++ [Semi; Id ("__mState_" ++ FUNC); Punct "."; Id "callFunc"; Punct "=";
   Id "callFunc"; Semi; Punct "}"; Id ("__mSetStubFunc_" ++ FUNC); LP;
   Id ("MoxieStubFunc_" ++ FUNC); Id "stubFunc"; RP; Punct "{"]
  ++ Assert [[Id ("__mState_" ++ FUNC); Punct "."; Id "mockFlag"]]
  ++ [Semi; Id ("__mState_" ++ FUNC); Punct "."; Id "stubFunc"; Punct "=";
   Id "stubFunc"; Semi; Punct "}"].

(** [#define _M_IMPLEMENT_MOCK_REAL(RET,FUNC,...)]: the trampoline where
    [__darwin__] is defined, nothing elsewhere. *)
Definition _M_IMPLEMENT_MOCK_REAL (RET : ret) (FUNC : string)
    (va : list marg) : tokens :=
  if darwin then
    _M_RETURN_TYPE RET
    ++ [Id ("__real_" ++ FUNC); LP]
    ++ _M_PARAMS_DECLARATION FUNC va
    ++ [RP; Punct "{"]
    ++ _M_RETURN RET
    ++ [Id FUNC; LP]
    ++ _M_PARAMS_CALL FUNC va
    ++ [RP; Semi; Punct "}"]
  else [].

(** The statement [_M_RETURN(RET) CALLEE(ARGS);] of the dispatcher and
    of the return-stubbing adapter. *)
Definition return_call (RET : ret) (callee ARGS : tokens) : tokens :=
  _M_RETURN RET ++ callee ++ [LP] ++ ARGS ++ [RP; Semi].

(** The fast path of the dispatcher:
    [_M_RETURN(RET) __real_##FUNC(_M_PARAMS_CALL(FUNC,__VA_ARGS__));] *)
Definition wrap_fast_path (RET : ret) (FUNC : string) (va : list marg)
  : tokens :=
  return_call RET [Id ("__real_" ++ FUNC)] (_M_PARAMS_CALL FUNC va).

(** The return-adapter branch of the slow path:
    [_M_RETURN(RET) ( *stubFunc)(_M_PARAMS_MOCK_CALL(FUNC,__VA_ARGS__));] *)
Definition wrap_stub_path (RET : ret) (FUNC : string) (va : list marg)
  : tokens :=
  return_call RET [LP; Punct "*"; Id "stubFunc"; RP]
    (_M_PARAMS_MOCK_CALL FUNC va).

(** [#define _M_IMPLEMENT_MOCK_WRAP(RET,FUNC,...)]: the wrapped
    dispatcher.  The backslash that ends the line of the last call of
    [__real_##FUNC] is followed by a space; the line is joined to the
    next one all the same, as GCC and Clang do. *)
Definition _M_IMPLEMENT_MOCK_WRAP (RET : ret) (FUNC : string)
    (va : list marg) : tokens :=
  _M_RETURN_TYPE RET
  ++ [Id ("__wrap_" ++ FUNC); LP]
  ++ _M_PARAMS_DECLARATION FUNC va
  ++ [RP; Punct "{"; Id "int"; Id "mockFlag"; Punct "=";
   Id ("__mState_" ++ FUNC); Punct "."; Id "mockFlag"; Semi; Id "if"; LP;
   Punct "!"; Id "mockFlag"; RP; Punct "{"]
  ++ wrap_fast_path RET FUNC va
  ++ [Punct "}"; Id "else"; Punct "{"; Id "char"; Punct "*"; Id "scope";
   Punct "="; Id ("__mState_" ++ FUNC); Punct "."; Id "scope"; Semi;
   Id "MockSupport_c"; Punct "*"; Id "mockSupport"; Punct "="; LP;
   Id "scope"; Punct "["; Num "0"; Punct "]"; Punct "=="; Chr "\0"; RP;
   Punct "?"; Id "mock_c"; LP; RP; Punct ":"; Id "mock_scope_c"; LP;
   Id "scope"; RP; Semi; Id "MockActualCall_c"; Punct "*"; Id "actualCall";
   Punct "="; Id "mockSupport"; Punct "->"; Id "actualCall"; LP]
  ++ _M_STR [Id FUNC]
  ++ [RP; Semi; Id ("MoxieCallFunc_" ++ FUNC); Id "callFunc"; Punct "=";
   Id ("__mState_" ++ FUNC); Punct "."; Id "callFunc"; Semi; Id "if"; LP;
   Id "callFunc"; Punct "!="; Id "NULL"; RP; Punct "{"; LP; Punct "*";
   Id "callFunc"; RP; LP]
  ++ _M_PARAMS_MOCK_CALL FUNC va
  ++ [RP; Semi; Punct "}"; Id ("MoxieStubFunc_" ++ FUNC); Id "stubFunc";
   Punct "="; Id ("__mState_" ++ FUNC); Punct "."; Id "stubFunc"; Semi;
   Id "if"; LP; Id "stubFunc"; Punct "!="; Id "NULL"; RP; Punct "{"]
  ++ wrap_stub_path RET FUNC va
  ++ [Punct "}"; Id "else"; Punct "{"]
  ++ wrap_fast_path RET FUNC va
  ++ [Punct "}"; Punct "}"; Punct "}"].

(** [#define _M_IMPLEMENT_MOCK_CALL(RET,FUNC,...)]: the call-recording
    adapter; its body is [_M_PARAMS_FUNC_IMPL(FUNC,__VA_ARGS__);]. *)
Definition mCallFunc_body (FUNC : string) (va : list marg) : tokens :=
  _M_PARAMS_FUNC_IMPL FUNC va ++ [Semi].

Definition _M_IMPLEMENT_MOCK_CALL (RET : ret) (FUNC : string)
    (va : list marg) : tokens :=
  [Id "void"; Id ("__mCallFunc_" ++ FUNC); LP]
  ++ _M_PARAMS_MOCK_DECLARATION FUNC va
  ++ [RP; Punct "{"]
  ++ mCallFunc_body FUNC va
  ++ [Punct "}"].

(** [#define _M_IMPLEMENT_MOCK_STUB(RET,FUNC,...)]: the return-stubbing
    adapter.  The line of the call of [__real_##FUNC] does not end in a
    backslash, so the replacement list ends with that line; the two
    closing braces written after it are not part of the macro. *)
Definition _M_IMPLEMENT_MOCK_STUB (RET : ret) (FUNC : string)
    (va : list marg) : tokens :=
  _M_RETURN_TYPE RET
  ++ [Id ("__mStubFunc_" ++ FUNC); LP]
  ++ _M_PARAMS_MOCK_DECLARATION FUNC va
  ++ [RP; Punct "{"; Id "if"; LP; Id "actualCall"; Punct "->";
   Id "hasReturnValue"; LP; RP; RP; Punct "{"]
  ++ _M_RETURN_FUNC_IMPL RET
  ++ [Semi; Punct "}"; Id "else"; Punct "{"]
  ++ wrap_fast_path RET FUNC va.

(** [#define _M_DYLD_INTERPOSE(FUNC)]: the interposition record where
    [__darwin__] is defined, nothing elsewhere. *)
Definition _M_DYLD_INTERPOSE (FUNC : string) : tokens :=
  if darwin then
    [Id "static"; Id "const"; Id "__interpose"; Id ("__interpose_" ++ FUNC);
     Id "__attribute__"; LP; LP; Id "user"; Comma; Id "section"; LP;
     Str "__DATA,__interpose"; RP; RP; RP; Punct "="; Punct "{"; Punct ".";
     Id "__wrapFunc"; Punct "="; LP; Id "const"; Id "void"; Punct "*"; RP;
     LP; LP; Id "uintptr_t"; RP; LP; Punct "&"; LP; Id ("__wrap_" ++ FUNC);
     RP; RP; RP; Comma; Punct "."; Id "__realFunc"; Punct "="; LP;
     Id "const"; Id "void"; Punct "*"; RP; LP; LP; Id "uintptr_t"; RP; LP;
     Punct "&"; LP; Id FUNC; RP; RP; RP; Comma; Punct "}"; Semi]
  else [].

(** [#define _M_IMPLEMENT_MOCK(RET,FUNC,...)] *)
Definition _M_IMPLEMENT_MOCK (RET : ret) (FUNC : string) (va : list marg)
  : tokens :=
  _M_IMPLEMENT_MOCK_PREFACE RET FUNC va
  ++ _M_IMPLEMENT_MOCK_REAL RET FUNC va
  ++ _M_IMPLEMENT_MOCK_WRAP RET FUNC va
  ++ _M_IMPLEMENT_MOCK_CALL RET FUNC va
  ++ _M_IMPLEMENT_MOCK_STUB RET FUNC va
  ++ _M_DYLD_INTERPOSE FUNC.

End Generators.

(** [#define M_DECLARE_MOCK(RET,FUNC,...)
       _M_DECLARE_MOCK(RET,FUNC,__VA_ARGS__)] and
    [#define M_IMPLEMENT_MOCK(RET,FUNC,...)
       _M_IMPLEMENT_MOCK(RET,FUNC,__VA_ARGS__)] *)
Definition M_DECLARE_MOCK := _M_DECLARE_MOCK.
Definition M_IMPLEMENT_MOCK := _M_IMPLEMENT_MOCK.

(** ** The state record and its accessors, as the C code runs

    [typedef struct MoxieState { int mockFlag; char *scope;
       void *callFunc; void *stubFunc; } MoxieState;] *)

(** A pointer to a function: [NULL], or the address of the function of
    that name. *)
Inductive fptr : Type :=
| NULL
| AddressOf (name : string).

Record MoxieState : Type := mkMoxieState {
  mockFlag : Z;
  scope : string;
  callFunc : fptr;
  stubFunc : fptr
}.

(** Assignments to one field. *)
Definition set_mockFlag (v : Z) (st : MoxieState) : MoxieState :=
  mkMoxieState v (scope st) (callFunc st) (stubFunc st).

Definition set_scope (v : string) (st : MoxieState) : MoxieState :=
  mkMoxieState (mockFlag st) v (callFunc st) (stubFunc st).

Definition set_callFunc (v : fptr) (st : MoxieState) : MoxieState :=
  mkMoxieState (mockFlag st) (scope st) v (stubFunc st).

Definition set_stubFunc (v : fptr) (st : MoxieState) : MoxieState :=
  mkMoxieState (mockFlag st) (scope st) (callFunc st) v.

(** What [Assert(c)] does when it runs: [true] lets the function go on,
    [false] stops the program.  The header's own [Assert] expands to no
    token, so nothing is evaluated and the function goes on. *)
Definition Assert_empty (c : Z) : bool := true.

(** An [Assert] a debug build may define before it includes the header,
    in the way of [assert(c)]. *)
Definition Assert_debug (c : Z) : bool := negb (Z.eqb c 0).

Section Accessors.

Variable FUNC : string.
Variable Assert : Z -> bool.

(** [static MoxieState __mState_##FUNC = { .mockFlag = 0, .scope = "",
      .callFunc = &__mCallFunc_##FUNC, .stubFunc = &__mStubFunc_##FUNC, };] *)
Definition __mState : MoxieState :=
  {| mockFlag := 0;
     scope := "";
     callFunc := AddressOf ("__mCallFunc_" ++ FUNC);
     stubFunc := AddressOf ("__mStubFunc_" ++ FUNC) |}.

(** [void __mReset_##FUNC(void)] *)
Definition __mReset (st : MoxieState) : MoxieState :=
  let st := set_mockFlag 0 st in
  let st := set_scope "" st in
  let st := set_callFunc (AddressOf ("__mCallFunc_" ++ FUNC)) st in
  set_stubFunc (AddressOf ("__mStubFunc_" ++ FUNC)) st.

(** [void __mEnable_##FUNC(void)] *)
Definition __mEnable (st : MoxieState) : MoxieState :=
  set_mockFlag 1 st.

(** [void __mSetScope_##FUNC(const char *scope)]; [None] when the
    assertion stops the program. *)
Definition __mSetScope (scope : string) (st : MoxieState)
  : option MoxieState :=
  if Assert (mockFlag st) then Some (set_scope scope st) else None.

(** [__mSetCallFunc_##FUNC(MoxieCallFunc_##FUNC callFunc)]; the
    definition names no return type, and returns nothing. *)
Definition __mSetCallFunc (callFunc : fptr) (st : MoxieState)
  : option MoxieState :=
  if Assert (mockFlag st) then Some (set_callFunc callFunc st) else None.

(** [__mSetStubFunc_##FUNC(MoxieStubFunc_##FUNC stubFunc)]; no return
    type either. *)
Definition __mSetStubFunc (stubFunc : fptr) (st : MoxieState)
  : option MoxieState :=
  if Assert (mockFlag st) then Some (set_stubFunc stubFunc st) else None.

(** A test configures the record by calls of the five accessors. *)
Inductive operation : Type :=
| CallReset
| CallEnable
| CallSetScope (scope : string)
| CallSetCallFunc (callFunc : fptr)
| CallSetStubFunc (stubFunc : fptr).

Definition perform (o : operation) (st : MoxieState) : option MoxieState :=
  match o with
  | CallReset => Some (__mReset st)
  | CallEnable => Some (__mEnable st)
  | CallSetScope s => __mSetScope s st
  | CallSetCallFunc f => __mSetCallFunc f st
  | CallSetStubFunc f => __mSetStubFunc f st
  end.

Fixpoint perform_all (os : list operation) (st : MoxieState)
  : option MoxieState :=
  match os with
  | [] => Some st
  | o :: os' =>
      match perform o st with
      | Some st' => perform_all os' st'
      | None => None
      end
  end.

End Accessors.


(** ** Definitions used in the statements *)

(** The parenthesis depth after [ts], from depth [depth]; [None] when a
    parenthesis closes that never opened. *)
Fixpoint nesting (depth : nat) (ts : tokens) : option nat :=
  match ts with
  | [] => Some depth
  | t :: ts' =>
      if is_punct "(" t then nesting (S depth) ts'
      else if is_punct ")" t then
        match depth with
        | O => None
        | S d => nesting d ts'
        end
      else nesting depth ts'
  end.

(** Tokens with matching parentheses, as every macro argument has. *)
Definition balanced (ts : tokens) : bool :=
  match nesting 0 ts with
  | Some O => true
  | _ => false
  end.

Definition ret_balanced (RET : ret) : bool :=
  match ret_args RET with
  | Some a => forallb balanced a
  | None => true
  end.

(** One entry per descriptor, in the order of the descriptors, with a
    comma between two entries. *)
Definition one_entry_each (entry : param -> tokens) (ps : list param)
  : tokens :=
  commas (map entry ps).

(** One statement per descriptor, in the order of the descriptors. *)
Definition one_statement_each (ps : list param) : tokens :=
  concat (map (fun p => _M_PARAM_CALLBACK (Some p)) ps).

(** [M_PARAM_INT(int,a0), ..., M_PARAM_INT(int,a8)] *)
Definition nine_ints : list param :=
  map (fun a => M_PARAM_INT [Id "int"] [Id a])
    ["a0"; "a1"; "a2"; "a3"; "a4"; "a5"; "a6"; "a7"; "a8"].

(** [M_RETURN_DOUBLE(double)] and [M_PARAM_DOUBLE(double,x)], the
    signature of [sqrt]. *)
Definition sqrt_ret : ret := M_RETURN_DOUBLE [Id "double"].
Definition sqrt_params : list marg :=
  [Some (M_PARAM_DOUBLE [Id "double"] [Id "x"])].

(** The call of the real trampoline on the parameters of the function,
    [__real_FUNC(NAMES);], which the dispatcher is to return, or to run
    when the function returns [void]. *)
Definition real_call (FUNC : string) (va : list marg) : tokens :=
  Id ("__real_" ++ FUNC) :: LP :: _M_PARAMS_CALL FUNC va ++ [RP; Semi].

(** What [_M_RETURN(RET)] leaves: the name built by [_M_IF_] is no macro,
    so the groups after it stay. *)
Definition unexpanded_return : tokens :=
  [Id "_M_IF__M_NEGATE0"; LP; Id "_M_EXPAND"; Comma; Id "_M_IGNORE"; RP;
   LP; Id "return"; RP].

(** The number of tokens of [ts] that are the punctuator [p]. *)
Definition count_punct (p : string) (ts : tokens) : nat :=
  length (filter (is_punct p) ts).

(** ** Further macros of the header, and definitions for their
    properties *)

(** The pp-number that spells [n] in decimal, and the tokens [0] and [1]
    of the boolean macros. *)
Definition numeral (n : nat) : token :=
  Num (NilEmpty.string_of_uint (Nat.to_uint n)).

Definition bit (b : bool) : tokens := [Num (if b then "1" else "0")].

(** The [_M_DEC_*] macros: [#define _M_DEC_0 0], [#define _M_DEC_1 0],
    [#define _M_DEC_2 1], ..., [#define _M_DEC_31 30]. *)
Definition dec_env : list (string * macro) :=
  [ ("_M_DEC_0", ObjectLike [Num "0"]);
    ("_M_DEC_1", ObjectLike [Num "0"]);
    ("_M_DEC_2", ObjectLike [Num "1"]);
    ("_M_DEC_3", ObjectLike [Num "2"]);
    ("_M_DEC_4", ObjectLike [Num "3"]);
    ("_M_DEC_5", ObjectLike [Num "4"]);
    ("_M_DEC_6", ObjectLike [Num "5"]);
    ("_M_DEC_7", ObjectLike [Num "6"]);
    ("_M_DEC_8", ObjectLike [Num "7"]);
    ("_M_DEC_9", ObjectLike [Num "8"]);
    ("_M_DEC_10", ObjectLike [Num "9"]);
    ("_M_DEC_11", ObjectLike [Num "10"]);
    ("_M_DEC_12", ObjectLike [Num "11"]);
    ("_M_DEC_13", ObjectLike [Num "12"]);
    ("_M_DEC_14", ObjectLike [Num "13"]);
    ("_M_DEC_15", ObjectLike [Num "14"]);
    ("_M_DEC_16", ObjectLike [Num "15"]);
    ("_M_DEC_17", ObjectLike [Num "16"]);
    ("_M_DEC_18", ObjectLike [Num "17"]);
    ("_M_DEC_19", ObjectLike [Num "18"]);
    ("_M_DEC_20", ObjectLike [Num "19"]);
    ("_M_DEC_21", ObjectLike [Num "20"]);
    ("_M_DEC_22", ObjectLike [Num "21"]);
    ("_M_DEC_23", ObjectLike [Num "22"]);
    ("_M_DEC_24", ObjectLike [Num "23"]);
    ("_M_DEC_25", ObjectLike [Num "24"]);
    ("_M_DEC_26", ObjectLike [Num "25"]);
    ("_M_DEC_27", ObjectLike [Num "26"]);
    ("_M_DEC_28", ObjectLike [Num "27"]);
    ("_M_DEC_29", ObjectLike [Num "28"]);
    ("_M_DEC_30", ObjectLike [Num "29"]);
    ("_M_DEC_31", ObjectLike [Num "30"]) ].

(** [#define _M_DEC(x) _M_PCAT(_M_DEC_,x)] *)
Definition _M_DEC (x : tokens) : tokens :=
  rescan_head dec_env (_M_PCAT [Id "_M_DEC_"] x).

(** [#define _M_OR(x) _M_PCAT(_M_OR_,x)], called as [_M_OR(x)(y)]. *)
Definition _M_OR (x y : tokens) : tokens :=
  call meta_env (_M_PCAT [Id "_M_OR_"] x) [y].

(** [#define _M_UNLESS(p) _M_IF(p)(_M_IGNORE,_M_EXPAND)], called as
    [_M_UNLESS(p)(body)]. *)
Definition _M_UNLESS (p : tokens) (body : list tokens) : tokens :=
  call_last meta_env (_M_IF p [[Id "_M_IGNORE"]; [Id "_M_EXPAND"]]) body.

(** Tokens that make one macro argument from parenthesis depth [depth]
    on: every parenthesis is matched and no comma is outside them. *)
Fixpoint single_arg (depth : nat) (ts : tokens) : bool :=
  match ts with
  | [] => Nat.eqb depth 0
  | t :: ts' =>
      if is_punct "," t && Nat.eqb depth 0 then false
      else if is_punct "(" t then single_arg (S depth) ts'
      else if is_punct ")" t then
        match depth with
        | O => false
        | S d => single_arg d ts'
        end
      else single_arg depth ts'
  end.


Definition is_reset (o : operation) : bool :=
  match o with
  | CallReset => true
  | _ => false
  end.

Definition is_setter (o : operation) : bool :=
  match o with
  | CallSetScope _ | CallSetCallFunc _ | CallSetStubFunc _ => true
  | _ => false
  end.

(** * Theorems *)

(** ** The macro layer *)

Lemma param_type_of_descriptor (p : param) :
  _M_PARAM_TYPE (Some p) = arg 0 (param_args p).
Proof. destruct p; reflexivity. Qed.

Lemma param_name_of_descriptor (p : param) :
  _M_PARAM_NAME (Some p) = arg 1 (param_args p).
Proof. destruct p; reflexivity. Qed.

(** Unfolds the dispatcher on a list of known length and leaves the
    per-descriptor macros in place. *)
Ltac expand_params :=
  cbn -[_M_PARAM_TYPE _M_PARAM_NAME _M_PARAM_CALLBACK];
  unfold _M_PARAM_PROTOTYPE, _M_PARAM_PROTOTYPE_TAIL,
    _M_PARAM_DECLARATION, _M_PARAM_DECLARATION_TAIL,
    _M_PARAM_CALL, _M_PARAM_CALL_TAIL,
    _M_PARAM_FUNC_IMPL, _M_PARAM_FUNC_IMPL_TAIL;
  repeat rewrite <- app_assoc;
  try reflexivity.

(** For one to eight descriptors the type-only list has one entry per
    descriptor, in order. *)
Lemma params_prototype_up_to_eight (FUNC : string) (ps : list param) :
  1 <= length ps <= 8 ->
  _M_PARAMS_PROTOTYPE FUNC (map Some ps)
  = one_entry_each (fun p => _M_PARAM_TYPE (Some p)) ps.
Proof.
  intros [Hlo Hhi].
  destruct ps as [|? ps]; [simpl in Hlo; lia | ].
  do 8 (destruct ps as [|? ps]; [expand_params | ]).
  simpl in Hhi; lia.
Qed.

(** For one to eight descriptors the type and name list has one entry
    per descriptor, in order. *)
Lemma params_declaration_up_to_eight (FUNC : string) (ps : list param) :
  1 <= length ps <= 8 ->
  _M_PARAMS_DECLARATION FUNC (map Some ps)
  = one_entry_each
      (fun p => _M_PARAM_TYPE (Some p) ++ _M_PARAM_NAME (Some p)) ps.
Proof.
  intros [Hlo Hhi].
  destruct ps as [|? ps]; [simpl in Hlo; lia | ].
  do 8 (destruct ps as [|? ps]; [expand_params | ]).
  simpl in Hhi; lia.
Qed.

(** For one to eight descriptors the name-only list has one entry per
    descriptor, in order. *)
Lemma params_call_up_to_eight (FUNC : string) (ps : list param) :
  1 <= length ps <= 8 ->
  _M_PARAMS_CALL FUNC (map Some ps)
  = one_entry_each (fun p => _M_PARAM_NAME (Some p)) ps.
Proof.
  intros [Hlo Hhi].
  destruct ps as [|? ps]; [simpl in Hlo; lia | ].
  do 8 (destruct ps as [|? ps]; [expand_params | ]).
  simpl in Hhi; lia.
Qed.

(** With nine descriptors [_M_PARAMS_8] is selected: the entry of the
    first descriptor is followed by the identifier [_M_PARAMS_7CALLBACK]
    and by the other eight descriptors as they were passed. *)
Lemma params_nine (CALLBACK FUNC : string) (p : param) (ps : list param) :
  length ps = 8 ->
  _M_PARAMS CALLBACK FUNC (map Some (p :: ps))
  = invoke_callback CALLBACK FUNC [Num "0"] (Some p)
    ++ [Id "_M_PARAMS_7CALLBACK"; Comma; Id FUNC; Comma; Num "1"; Comma]
    ++ commas (map marg_tokens (map Some ps)) ++ [RP].
Proof.
  intros Hlen.
  do 8 (destruct ps as [|? ps]; [discriminate Hlen | ]).
  destruct ps as [|? ps]; [ | discriminate Hlen].
  cbn -[invoke_callback marg_tokens]. reflexivity.
Qed.

(** Every list of nine to thirty-two descriptors reaches [_M_PARAMS_8]:
    the identifier [_M_PARAMS_7CALLBACK] is in its expansion. *)
Lemma params_from_nine_on (CALLBACK FUNC : string) (ps : list param) :
  9 <= length ps <= 32 ->
  In (Id "_M_PARAMS_7CALLBACK") (_M_PARAMS CALLBACK FUNC (map Some ps)).
Proof.
  intros [Hlo Hhi].
  do 9 (destruct ps as [|? ps]; [simpl in Hlo; lia | ]).
  do 24 (destruct ps as [|? ps];
         [cbn -[invoke_callback marg_tokens];
          repeat (apply in_or_app;
                  first [ left; cbn [In]; tauto | right ]) | ]).
  simpl in Hhi; lia.
Qed.

(** C1 (arity dispatch keeps every descriptor): the claim asks, for every
    arity up to 31, one entry per descriptor in each of the three
    projections.  For the nine descriptors [M_PARAM_INT(int,a0)] to
    [M_PARAM_INT(int,a8)] each projection holds the entry of the first
    descriptor only, followed by the identifier [_M_PARAMS_7CALLBACK] and
    the eight other descriptors unprojected, so none of the three is the
    list of one entry per descriptor. *)
Theorem params_nine_descriptors_lose_entries :
  let rest :=
    [Id "_M_PARAMS_7CALLBACK"; Comma; Id "f"; Comma; Num "1"; Comma]
    ++ commas (map marg_tokens (map Some (tl nine_ints))) ++ [RP] in
  _M_PARAMS_PROTOTYPE "f" (map Some nine_ints)
    = [Id "int"; Comma] ++ rest
  /\ _M_PARAMS_DECLARATION "f" (map Some nine_ints)
    = [Id "int"; Id "a0"; Comma] ++ rest
  /\ _M_PARAMS_CALL "f" (map Some nine_ints)
    = [Id "a0"; Comma] ++ rest
  /\ _M_PARAMS_PROTOTYPE "f" (map Some nine_ints)
    <> one_entry_each (fun p => _M_PARAM_TYPE (Some p)) nine_ints
  /\ _M_PARAMS_DECLARATION "f" (map Some nine_ints)
    <> one_entry_each
         (fun p => _M_PARAM_TYPE (Some p) ++ _M_PARAM_NAME (Some p))
         nine_ints
  /\ _M_PARAMS_CALL "f" (map Some nine_ints)
    <> one_entry_each (fun p => _M_PARAM_NAME (Some p)) nine_ints.
Proof.
  repeat split; try reflexivity;
    intro H; vm_compute in H; discriminate H.
Qed.

(** ** The void parameter marker *)

(** C7 (void marker alone): for [M_PARAM_VOID] as the only descriptor the
    plain prototype and declaration projections are the single token
    [void].  The mock projections are not the two mock-support
    parameters: the name [_M_IF__M_NEGATE0] built for the conditional is
    no macro, so both of its branches stay, the second one with the
    [void] descriptor. *)
Theorem void_marker_alone (FUNC : string) :
  _M_PARAMS_PROTOTYPE FUNC [Some M_PARAM_VOID] = [Id "void"]
  /\ _M_PARAMS_DECLARATION FUNC [Some M_PARAM_VOID] = [Id "void"]
  /\ _M_PARAMS_MOCK_PROTOTYPE FUNC [Some M_PARAM_VOID]
     = [Id "_M_IF__M_NEGATE0"; LP;
        Id "MockSupport_c"; Punct "*"; Comma;
        Id "MockActualCall_c"; Punct "*"; Comma;
        Id "MockSupport_c"; Punct "*"; Comma;
        Id "MockActualCall_c"; Punct "*"; Comma; Id "void"; RP]
  /\ _M_PARAMS_MOCK_DECLARATION FUNC [Some M_PARAM_VOID]
     = [Id "_M_IF__M_NEGATE0"; LP;
        Id "MockSupport_c"; Punct "*"; Id "mockSupport"; Comma;
        Id "MockActualCall_c"; Punct "*"; Id "actualCall"; Comma;
        Id "MockSupport_c"; Punct "*"; Id "mockSupport"; Comma;
        Id "MockActualCall_c"; Punct "*"; Id "actualCall"; Comma;
        Id "void"; RP]
  /\ _M_PARAMS_MOCK_PROTOTYPE FUNC [Some M_PARAM_VOID]
     <> [Id "MockSupport_c"; Punct "*"; Comma;
         Id "MockActualCall_c"; Punct "*"]
  /\ _M_PARAMS_MOCK_DECLARATION FUNC [Some M_PARAM_VOID]
     <> [Id "MockSupport_c"; Punct "*"; Id "mockSupport"; Comma;
         Id "MockActualCall_c"; Punct "*"; Id "actualCall"].
Proof.
  repeat split; try reflexivity; intro H; discriminate H.
Qed.

(** The two-parameter lists the mock projections were to select: the
    first branch of their conditional. *)
Lemma mock_support_parameters (FUNC : string) :
  _M_PARAMS_PROTOTYPE FUNC [Some M_PARAM_MS; Some M_PARAM_MAC]
  = [Id "MockSupport_c"; Punct "*"; Comma; Id "MockActualCall_c"; Punct "*"]
  /\ _M_PARAMS_DECLARATION FUNC [Some M_PARAM_MS; Some M_PARAM_MAC]
  = [Id "MockSupport_c"; Punct "*"; Id "mockSupport"; Comma;
     Id "MockActualCall_c"; Punct "*"; Id "actualCall"]
  /\ _M_PARAMS_CALL FUNC [Some M_PARAM_MS; Some M_PARAM_MAC]
  = [Id "mockSupport"; Comma; Id "actualCall"].
Proof. repeat split. Qed.

(** The defect behind the conditional: [_M_NEGATE] pastes its argument
    to [_M_NEGATE], not to [_M_NEGATE_], and so never reaches the macros
    [_M_NEGATE_0] and [_M_NEGATE_1] that the header defines for it. *)
Lemma negate_builds_no_macro :
  _M_NEGATE [Num "0"] = [Id "_M_NEGATE0"]
  /\ _M_NEGATE [Num "1"] = [Id "_M_NEGATE1"]
  /\ lookup "_M_NEGATE0" meta_env = None
  /\ lookup "_M_NEGATE1" meta_env = None
  /\ lookup "_M_NEGATE_0" meta_env = Some (ObjectLike [Num "1"])
  /\ lookup "_M_NEGATE_1" meta_env = Some (ObjectLike [Num "0"])
  /\ _M_EQUAL [Id "void"] [Id "void"] = [Id "_M_NEGATE0"]
  /\ forall t e, _M_IF [Id "_M_NEGATE0"] [t; e]
                 = Id "_M_IF__M_NEGATE0" :: call_tokens [t; e].
Proof. repeat split. Qed.

(** ** The call-recording adapter *)

(** Each kind of descriptor gives the statement that registers the
    parameter with the accessor of that kind: the name as a string and
    the value, and the type as a string before them for the two typed
    pointer kinds; [M_PARAM_IGNORE] gives no statement and
    [M_PARAM_CUSTOM] the code it was given. *)
Lemma param_callback_by_kind (PTYPE PNAME VA : tokens) :
  let with_ m := actualCall_stmt m [_M_STR PNAME; PNAME] in
  let of_type m := actualCall_stmt m [_M_STR PTYPE; _M_STR PNAME; PNAME] in
  _M_PARAM_CALLBACK (Some (M_PARAM_BOOL PTYPE PNAME))
    = with_ "withBoolParameters"
  /\ _M_PARAM_CALLBACK (Some (M_PARAM_INT PTYPE PNAME))
    = with_ "withIntParameters"
  /\ _M_PARAM_CALLBACK (Some (M_PARAM_UINT PTYPE PNAME))
    = with_ "withUnsignedIntParameters"
  /\ _M_PARAM_CALLBACK (Some (M_PARAM_LONG PTYPE PNAME))
    = with_ "withLongIntParameters"
  /\ _M_PARAM_CALLBACK (Some (M_PARAM_ULONG PTYPE PNAME))
    = with_ "withUnsignedLongIntParameters"
  /\ _M_PARAM_CALLBACK (Some (M_PARAM_DOUBLE PTYPE PNAME))
    = with_ "withDoubleParameters"
  /\ _M_PARAM_CALLBACK (Some (M_PARAM_CHAR_PTR PTYPE PNAME))
    = with_ "withStringParameters"
  /\ _M_PARAM_CALLBACK (Some (M_PARAM_IN_PTR PTYPE PNAME))
    = with_ "withPointerParameters"
  /\ _M_PARAM_CALLBACK (Some (M_PARAM_OUT_PTR PTYPE PNAME))
    = with_ "withOutputParameter"
  /\ _M_PARAM_CALLBACK (Some (M_PARAM_IN_TYPE_PTR PTYPE PNAME))
    = of_type "withParameterOfType"
  /\ _M_PARAM_CALLBACK (Some (M_PARAM_OUT_TYPE_PTR PTYPE PNAME))
    = of_type "withOutputParameterOfType"
  /\ _M_PARAM_CALLBACK (Some (M_PARAM_IGNORE PTYPE PNAME)) = []
  /\ _M_PARAM_CALLBACK (Some (M_PARAM_CUSTOM PTYPE PNAME VA)) = VA
  /\ _M_PARAM_CALLBACK (Some M_PARAM_VOID) = [].
Proof. repeat split. Qed.

(** For one to eight descriptors the body of the adapter is the
    statement of each descriptor, in order. *)
Lemma call_adapter_up_to_eight (FUNC : string) (ps : list param) :
  1 <= length ps <= 8 ->
  mCallFunc_body FUNC (map Some ps) = one_statement_each ps ++ [Semi].
Proof.
  intros [Hlo Hhi]. unfold mCallFunc_body, one_statement_each.
  destruct ps as [|? ps]; [simpl in Hlo; lia | ].
  do 8 (destruct ps as [|? ps];
        [expand_params; repeat rewrite app_nil_r;
         repeat rewrite <- app_assoc; reflexivity | ]).
  simpl in Hhi; lia.
Qed.

(** C8 (one accessor per descriptor): the claim asks for the accessor of
    its kind for every descriptor of the list.  For the nine descriptors
    [M_PARAM_INT(int,a0)] to [M_PARAM_INT(int,a8)] the body of the adapter
    registers [a0] only: after its statement come the identifier
    [_M_PARAMS_7CALLBACK] and the other eight descriptors as they were
    passed, not their statements. *)
Theorem call_adapter_nine_descriptors :
  mCallFunc_body "f" (map Some nine_ints)
  = actualCall_stmt "withIntParameters" [[Str "a0"]; [Id "a0"]]
    ++ [Id "_M_PARAMS_7CALLBACK"; Comma; Id "f"; Comma; Num "1"; Comma]
    ++ commas (map marg_tokens (map Some (tl nine_ints))) ++ [RP; Semi]
  /\ mCallFunc_body "f" (map Some nine_ints)
     <> one_statement_each nine_ints ++ [Semi]
  /\ count_punct "->" (mCallFunc_body "f" (map Some nine_ints)) = 1
  /\ count_punct "->" (one_statement_each nine_ints) = 9.
Proof.
  repeat split; try reflexivity.
  intro H; vm_compute in H; discriminate H.
Qed.

(** ** The API macros *)

(** The accessors are declared under the pasted names. *)
Lemma declared_accessor_names (RET : ret) (FUNC : string) (va : list marg) :
  let declared := _M_DECLARE_MOCK RET FUNC va in
  In (Id ("__mReset_" ++ FUNC)) declared
  /\ In (Id ("__mEnable_" ++ FUNC)) declared
  /\ In (Id ("__mSetScope_" ++ FUNC)) declared
  /\ In (Id ("__mSetCallFunc_" ++ FUNC)) declared
  /\ In (Id ("__mSetStubFunc_" ++ FUNC)) declared.
Proof.
  cbv zeta. unfold _M_DECLARE_MOCK.
  repeat split;
    repeat (apply in_or_app; first [ left; cbn [In]; tauto | right ]).
Qed.

(** C10 (API macros name the accessors): the claim asks that
    [Moxie_reset(FUNC)] and its four siblings expand to the single
    identifier [__mReset_FUNC] and so on.  Each expands to two tokens,
    the identifier without the function name and the function name as a
    string literal, for every [FUNC]; for [sqrt], [__mReset_ "sqrt"],
    which is not the declared accessor [__mReset_sqrt]. *)
Theorem api_macros_stringize (FUNC : string) :
  Moxie_reset FUNC = [Id "__mReset_"; Str FUNC]
  /\ Moxie_enable FUNC = [Id "__mEnable_"; Str FUNC]
  /\ Moxie_setScope FUNC = [Id "__mSetScope_"; Str FUNC]
  /\ Moxie_setCallFunc FUNC = [Id "__mSetCallFunc_"; Str FUNC]
  /\ Moxie_setStubFunc FUNC = [Id "__mSetStubFunc_"; Str FUNC]
  /\ Moxie_reset FUNC <> [Id ("__mReset_" ++ FUNC)]
  /\ Moxie_enable FUNC <> [Id ("__mEnable_" ++ FUNC)]
  /\ Moxie_setScope FUNC <> [Id ("__mSetScope_" ++ FUNC)]
  /\ Moxie_setCallFunc FUNC <> [Id ("__mSetCallFunc_" ++ FUNC)]
  /\ Moxie_setStubFunc FUNC <> [Id ("__mSetStubFunc_" ++ FUNC)].
Proof.
  repeat split; intro H; discriminate H.
Qed.

(** The sibling macros that paste with [##] do give one identifier. *)
Lemma real_and_mock_names (FUNC : string) :
  M_REAL_FUNC FUNC = [Id ("__real_" ++ FUNC)]
  /\ M_MOCK_FUNC FUNC = [Id ("__wrap_" ++ FUNC)].
Proof. split; reflexivity. Qed.

(** ** The return keyword of the generated functions *)

Lemma split_args_aux_nested (ts : tokens) :
  forall k k' cur rest,
    nesting k ts = Some k' ->
    split_args_aux (S k) cur (ts ++ rest)
    = split_args_aux (S k') (rev ts ++ cur) rest.
Proof.
  induction ts as [|t ts IH]; intros k k' cur rest H; simpl in *.
  - now inversion H.
  - rewrite andb_false_r.
    destruct (is_punct "(" t).
    + rewrite (IH _ _ _ _ H). now rewrite <- app_assoc.
    + destruct (is_punct ")" t).
      * destruct k as [|d]; [discriminate H | ].
        simpl. rewrite (IH _ _ _ _ H). now rewrite <- app_assoc.
      * rewrite (IH _ _ _ _ H). now rewrite <- app_assoc.
Qed.

Lemma balanced_nesting (ts : tokens) :
  balanced ts = true -> nesting 0 ts = Some 0.
Proof.
  unfold balanced. destruct (nesting 0 ts) as [[|n]|]; congruence.
Qed.

Lemma nesting_app (x y : tokens) :
  forall k, nesting k (x ++ y)
            = match nesting k x with
              | Some k' => nesting k' y
              | None => None
              end.
Proof.
  induction x as [|t x IH]; intros k; simpl; [reflexivity | ].
  destruct (is_punct "(" t); [apply IH | ].
  destruct (is_punct ")" t); [ | apply IH].
  destruct k; [reflexivity | apply IH].
Qed.

Lemma nesting_commas (args : list tokens) :
  forallb balanced args = true -> nesting 0 (commas args) = Some 0.
Proof.
  induction args as [|a args IH]; intros H; [reflexivity | ].
  simpl in H. apply andb_prop in H. destruct H as [Ha Hargs].
  apply balanced_nesting in Ha.
  destruct args as [|b args]; [exact Ha | ].
  change (commas (a :: b :: args)) with (a ++ Comma :: commas (b :: args)).
  rewrite nesting_app, Ha. exact (IH Hargs).
Qed.

(** [_M_CHECK] on two names and a call group that no macro took. *)
Lemma check_unexpanded_call (a b : string) (args : list tokens) :
  forallb balanced args = true ->
  _M_CHECK (Id a :: Id b :: call_tokens args ++ [LP; LP; RP; RP])
  = [Num "0"].
Proof.
  intros H. unfold _M_CHECK, split_args, call_tokens.
  cbn [app]. repeat rewrite <- app_assoc.
  change (split_args_aux 0 []
            (Id a :: Id b :: LP
             :: commas args ++ [RP] ++ [LP; LP; RP; RP]
                ++ [Comma; Num "0"; Comma]))
    with (split_args_aux 1 [LP; Id b; Id a]
            (commas args ++ [RP] ++ [LP; LP; RP; RP]
             ++ [Comma; Num "0"; Comma])).
  rewrite (split_args_aux_nested _ 0 0 _ _ (nesting_commas _ H)).
  reflexivity.
Qed.

(** A name with its call group compares with nothing when no
    [_M_COMPARE_] macro exists for it. *)
Lemma not_comparable (name : string) (args : list tokens) :
  lookup ("_M_COMPARE_" ++ name) meta_env = None ->
  forallb balanced args = true ->
  _M_IS_COMPARABLE (Id name :: call_tokens args) = [Num "0"].
Proof.
  intros Hname Hargs.
  unfold _M_IS_COMPARABLE, _M_DCAT, _M_PCAT. cbn [rev app paste].
  unfold rescan_head at 1. rewrite Hname.
  unfold _M_IS_PAREN.
  change (rescan_head meta_env
            (Id "_M_IS_PAREN_PROBE"
             :: Id ("_M_COMPARE_" ++ name)
                :: call_tokens args ++ [LP; LP; RP; RP]))
    with (Id "_M_IS_PAREN_PROBE"
          :: Id ("_M_COMPARE_" ++ name)
             :: call_tokens args ++ [LP; LP; RP; RP]).
  apply check_unexpanded_call, Hargs.
Qed.

Lemma not_equal_unknown_name (name : string) (args : list tokens) :
  lookup ("_M_COMPARE_" ++ name) meta_env = None ->
  forallb balanced args = true ->
  _M_NOT_EQUAL (Id name :: call_tokens args) [Id "void"] = [Num "1"].
Proof.
  intros Hname Hargs. unfold _M_NOT_EQUAL.
  rewrite (not_comparable name args Hname Hargs). reflexivity.
Qed.

(** [_M_RETURN_TYPE] and [_M_RETURN_CALLBACK] paste the suffix [_KIND] to
    a name that ends in an underscore; the names with two underscores
    they build are no macros, so the descriptor stays behind them. *)
Lemma return_macros_build_no_macro (RET : ret) :
  let group := match ret_args RET with
               | Some a => call_tokens a
               | None => []
               end in
  _M_RETURN_TYPE RET = Id ("_M_RETURN_TYPE_" ++ ret_suffix RET) :: group
  /\ _M_RETURN_CALLBACK RET
     = Id ("_M_RETURN_CALLBACK_" ++ ret_suffix RET) :: group
  /\ lookup ("_M_RETURN_TYPE_" ++ ret_suffix RET) ret_env = None
  /\ lookup ("_M_RETURN_CALLBACK_" ++ ret_suffix RET) ret_env = None.
Proof. destruct RET; repeat split. Qed.

(** [_M_RETURN(RET)] is never the keyword [return], and never empty: for
    every return descriptor it leaves the same nine tokens. *)
Lemma return_macro_unexpanded (RET : ret) :
  ret_balanced RET = true -> _M_RETURN RET = unexpanded_return.
Proof.
  destruct RET; unfold ret_balanced; cbn [ret_args]; intros H;
    try reflexivity; unfold _M_RETURN;
    match goal with
    | |- context [_M_RETURN_TYPE ?R] =>
        change (_M_RETURN_TYPE R)
          with (Id ("_M_RETURN_TYPE_" ++ ret_suffix R)
                :: call_tokens (match ret_args R with
                                | Some a => a
                                | None => []
                                end))
    end;
    cbn [ret_suffix ret_args];
    rewrite not_equal_unknown_name by (reflexivity || exact H);
    reflexivity.
Qed.

(** ** The wrapped dispatcher *)

(** The dispatcher generated for [sqrt]. *)
Lemma wrapped_dispatcher_of_sqrt :
  _M_IMPLEMENT_MOCK_WRAP sqrt_ret "sqrt" sqrt_params =
  [Id "_M_RETURN_TYPE__DOUBLE"; LP; Id "double"; RP; Id "__wrap_sqrt"; LP;
   Id "double"; Id "x"; RP; Punct "{"; Id "int"; Id "mockFlag"; Punct "=";
   Id "__mState_sqrt"; Punct "."; Id "mockFlag"; Semi; Id "if"; LP;
   Punct "!"; Id "mockFlag"; RP; Punct "{"; Id "_M_IF__M_NEGATE0"; LP;
   Id "_M_EXPAND"; Comma; Id "_M_IGNORE"; RP; LP; Id "return"; RP;
   Id "__real_sqrt"; LP; Id "x"; RP; Semi; Punct "}"; Id "else"; Punct "{";
   Id "char"; Punct "*"; Id "scope"; Punct "="; Id "__mState_sqrt";
   Punct "."; Id "scope"; Semi; Id "MockSupport_c"; Punct "*";
   Id "mockSupport"; Punct "="; LP; Id "scope"; Punct "["; Num "0";
   Punct "]"; Punct "=="; Chr "\0"; RP; Punct "?"; Id "mock_c"; LP; RP;
   Punct ":"; Id "mock_scope_c"; LP; Id "scope"; RP; Semi;
   Id "MockActualCall_c"; Punct "*"; Id "actualCall"; Punct "=";
   Id "mockSupport"; Punct "->"; Id "actualCall"; LP; Str "sqrt"; RP; Semi;
   Id "MoxieCallFunc_sqrt"; Id "callFunc"; Punct "="; Id "__mState_sqrt";
   Punct "."; Id "callFunc"; Semi; Id "if"; LP; Id "callFunc"; Punct "!=";
   Id "NULL"; RP; Punct "{"; LP; Punct "*"; Id "callFunc"; RP; LP;
   Id "_M_IF__M_NEGATE0"; LP; Id "mockSupport"; Comma; Id "actualCall";
   Comma; Id "mockSupport"; Comma; Id "actualCall"; Comma; Id "x"; RP; RP;
   Semi; Punct "}"; Id "MoxieStubFunc_sqrt"; Id "stubFunc"; Punct "=";
   Id "__mState_sqrt"; Punct "."; Id "stubFunc"; Semi; Id "if"; LP;
   Id "stubFunc"; Punct "!="; Id "NULL"; RP; Punct "{";
   Id "_M_IF__M_NEGATE0"; LP; Id "_M_EXPAND"; Comma; Id "_M_IGNORE"; RP; LP;
   Id "return"; RP; LP; Punct "*"; Id "stubFunc"; RP; LP;
   Id "_M_IF__M_NEGATE0"; LP; Id "mockSupport"; Comma; Id "actualCall";
   Comma; Id "mockSupport"; Comma; Id "actualCall"; Comma; Id "x"; RP; RP;
   Semi; Punct "}"; Id "else"; Punct "{"; Id "_M_IF__M_NEGATE0"; LP;
   Id "_M_EXPAND"; Comma; Id "_M_IGNORE"; RP; LP; Id "return"; RP;
   Id "__real_sqrt"; LP; Id "x"; RP; Semi; Punct "}"; Punct "}"; Punct "}"].
Proof. reflexivity. Qed.

(** C2 (disabled dispatcher returns the real result): the claim asks that
    the fast path return the result of the real trampoline.  The
    statement generated for the fast path does not begin with [return],
    for any return descriptor: [_M_RETURN(RET)] leaves the nine tokens
    [_M_IF__M_NEGATE0(_M_EXPAND,_M_IGNORE)(return)] in front of the call
    of [__real_##FUNC], which is no C statement that returns a value. *)
Theorem wrap_fast_path_unexpanded (RET : ret) (FUNC : string)
    (va : list marg) :
  ret_balanced RET = true ->
  wrap_fast_path RET FUNC va = unexpanded_return ++ real_call FUNC va
  /\ wrap_fast_path RET FUNC va <> Id "return" :: real_call FUNC va
  /\ wrap_fast_path RET FUNC va <> real_call FUNC va.
Proof.
  intros H. unfold wrap_fast_path, return_call, real_call.
  rewrite (return_macro_unexpanded RET H).
  repeat split; intro E; discriminate E.
Qed.

Lemma wrap_fast_path_unexpanded_witness :
  ret_balanced sqrt_ret = true
  /\ wrap_fast_path sqrt_ret "sqrt" sqrt_params
     = unexpanded_return ++ [Id "__real_sqrt"; LP; Id "x"; RP; Semi].
Proof.
  split; [reflexivity | ].
  apply (wrap_fast_path_unexpanded sqrt_ret "sqrt" sqrt_params).
  reflexivity.
Defined.

(** C3 (return adapter supplies the result): the claim asks that the
    dispatcher return what the return adapter computes on the tracking
    context, the call record and the arguments.  In the statement
    generated for [sqrt] the adapter is not handed these three: its only
    argument is a call of [_M_IF__M_NEGATE0], a name that is no macro and
    no function, on both branches of the conditional; and the statement
    does not begin with [return], for any return descriptor. *)
Theorem wrap_stub_path_unexpanded (RET : ret) (FUNC : string) :
  ret_balanced RET = true ->
  wrap_stub_path RET FUNC sqrt_params
  = unexpanded_return
    ++ [LP; Punct "*"; Id "stubFunc"; RP; LP;
        Id "_M_IF__M_NEGATE0"; LP;
        Id "mockSupport"; Comma; Id "actualCall"; Comma;
        Id "mockSupport"; Comma; Id "actualCall"; Comma; Id "x"; RP;
        RP; Semi]
  /\ wrap_stub_path RET FUNC sqrt_params
     <> [Id "return"; LP; Punct "*"; Id "stubFunc"; RP; LP;
         Id "mockSupport"; Comma; Id "actualCall"; Comma; Id "x";
         RP; Semi].
Proof.
  intros H. unfold wrap_stub_path, return_call.
  rewrite (return_macro_unexpanded RET H).
  split; [reflexivity | intro E; discriminate E].
Qed.

Lemma wrap_stub_path_unexpanded_witness :
  ret_balanced sqrt_ret = true
  /\ wrap_stub_path sqrt_ret "sqrt" sqrt_params
     = unexpanded_return
       ++ [LP; Punct "*"; Id "stubFunc"; RP; LP;
           Id "_M_IF__M_NEGATE0"; LP;
           Id "mockSupport"; Comma; Id "actualCall"; Comma;
           Id "mockSupport"; Comma; Id "actualCall"; Comma; Id "x"; RP;
           RP; Semi].
Proof.
  split; [reflexivity | ].
  apply (wrap_stub_path_unexpanded sqrt_ret "sqrt").
  reflexivity.
Defined.

(** C4 (default adapters behave as the real function): the claim asks
    that, with the default adapters and no return value configured, the
    call return what the real function returns.  The default return
    adapter generated for [sqrt] is no function that does so: its
    parameter list is a call of [_M_IF__M_NEGATE0], the branch that
    delegates to [__real_sqrt] does not begin with [return], the branch
    for a configured value is the unexpanded
    [_M_RETURN_CALLBACK__DOUBLE(double)], and of its three opening braces
    only one is closed, since the replacement list ends with the line of
    the call of [__real_sqrt]. *)
Theorem default_stub_adapter_of_sqrt :
  _M_IMPLEMENT_MOCK_STUB sqrt_ret "sqrt" sqrt_params =
  [Id "_M_RETURN_TYPE__DOUBLE"; LP; Id "double"; RP; Id "__mStubFunc_sqrt";
   LP; Id "_M_IF__M_NEGATE0"; LP; Id "MockSupport_c"; Punct "*";
   Id "mockSupport"; Comma; Id "MockActualCall_c"; Punct "*";
   Id "actualCall"; Comma; Id "MockSupport_c"; Punct "*"; Id "mockSupport";
   Comma; Id "MockActualCall_c"; Punct "*"; Id "actualCall"; Comma;
   Id "double"; Id "x"; RP; RP; Punct "{"; Id "if"; LP; Id "actualCall";
   Punct "->"; Id "hasReturnValue"; LP; RP; RP; Punct "{";
   Id "_M_RETURN_CALLBACK__DOUBLE"; LP; Id "double"; RP; Semi; Punct "}";
   Id "else"; Punct "{"; Id "_M_IF__M_NEGATE0"; LP; Id "_M_EXPAND"; Comma;
   Id "_M_IGNORE"; RP; LP; Id "return"; RP; Id "__real_sqrt"; LP; Id "x";
   RP; Semi]
  /\ count_punct "{" (_M_IMPLEMENT_MOCK_STUB sqrt_ret "sqrt" sqrt_params) = 3
  /\ count_punct "}" (_M_IMPLEMENT_MOCK_STUB sqrt_ret "sqrt" sqrt_params) = 1.
Proof. repeat split. Qed.

(** The macro that casts a configured value exists under the name with
    one underscore, which [_M_RETURN_CALLBACK] does not build. *)
Lemma return_callback_of_double :
  invoke ret_env "_M_RETURN_CALLBACK_DOUBLE" (Some [[Id "double"]])
  = [Id "return"; LP; Id "double"; RP;
     Id "actualCall"; Punct "->"; Id "doubleReturnValue"; LP; RP; Semi].
Proof. reflexivity. Qed.

(** ** The state record *)

(** The record and its accessors generated for [sqrt] where no [Assert]
    is defined: each [Assert(...);] is the empty statement. *)
Lemma preface_of_sqrt :
  _M_IMPLEMENT_MOCK_PREFACE Assert_default sqrt_ret "sqrt" sqrt_params =
  [Id "static"; Id "MoxieState"; Id "__mState_sqrt"; Punct "="; Punct "{";
   Punct "."; Id "mockFlag"; Punct "="; Num "0"; Comma; Punct ".";
   Id "scope"; Punct "="; Str ""; Comma; Punct "."; Id "callFunc";
   Punct "="; Punct "&"; Id "__mCallFunc_sqrt"; Comma; Punct ".";
   Id "stubFunc"; Punct "="; Punct "&"; Id "__mStubFunc_sqrt"; Comma;
   Punct "}"; Semi; Id "void"; Id "__mReset_sqrt"; LP; Id "void"; RP;
   Punct "{"; Id "__mState_sqrt"; Punct "."; Id "mockFlag"; Punct "=";
   Num "0"; Semi; Id "__mState_sqrt"; Punct "."; Id "scope"; Punct "=";
   Str ""; Semi; Id "__mState_sqrt"; Punct "."; Id "callFunc"; Punct "=";
   Punct "&"; Id "__mCallFunc_sqrt"; Semi; Id "__mState_sqrt"; Punct ".";
   Id "stubFunc"; Punct "="; Punct "&"; Id "__mStubFunc_sqrt"; Semi;
   Punct "}"; Id "void"; Id "__mEnable_sqrt"; LP; Id "void"; RP; Punct "{";
   Id "__mState_sqrt"; Punct "."; Id "mockFlag"; Punct "="; Num "1"; Semi;
   Punct "}"; Id "void"; Id "__mSetScope_sqrt"; LP; Id "const"; Id "char";
   Punct "*"; Id "scope"; RP; Punct "{"; Semi; Id "__mState_sqrt";
   Punct "."; Id "scope"; Punct "="; LP; Id "char"; Punct "*"; RP;
   Id "scope"; Semi; Punct "}"; Id "__mSetCallFunc_sqrt"; LP;
   Id "MoxieCallFunc_sqrt"; Id "callFunc"; RP; Punct "{"; Semi;
   Id "__mState_sqrt"; Punct "."; Id "callFunc"; Punct "="; Id "callFunc";
   Semi; Punct "}"; Id "__mSetStubFunc_sqrt"; LP; Id "MoxieStubFunc_sqrt";
   Id "stubFunc"; RP; Punct "{"; Semi; Id "__mState_sqrt"; Punct ".";
   Id "stubFunc"; Punct "="; Id "stubFunc"; Semi; Punct "}"].
Proof. reflexivity. Qed.

Lemma reset_gives_initial_state (FUNC : string) (st : MoxieState) :
  __mReset FUNC st = __mState FUNC.
Proof. reflexivity. Qed.

(** Where no [Assert] is defined every sequence of accessor calls runs
    to its end. *)
Lemma perform_all_without_Assert (FUNC : string) (os : list operation) :
  forall st, exists st', perform_all FUNC Assert_empty os st = Some st'.
Proof.
  induction os as [|o os IH]; intros st; simpl.
  - now exists st.
  - destruct o; simpl; apply IH.
Qed.

Lemma perform_all_app (FUNC : string) (Assert : Z -> bool)
    (os1 os2 : list operation) :
  forall st,
    perform_all FUNC Assert (os1 ++ os2) st
    = match perform_all FUNC Assert os1 st with
      | Some st' => perform_all FUNC Assert os2 st'
      | None => None
      end.
Proof.
  induction os1 as [|o os1 IH]; intros st; simpl; [reflexivity | ].
  destruct (perform FUNC Assert o st); [apply IH | reflexivity].
Qed.

(** C5 (reset restores the defaults): after any sequence of accessor
    calls on the record of [FUNC], [__mReset_FUNC] leaves the flag at 0,
    the scope at the empty string, the call adapter at [&__mCallFunc_FUNC]
    and the return adapter at [&__mStubFunc_FUNC]: the record is the one
    the program starts with. *)
Theorem reset_restores_defaults (FUNC : string) (Assert : Z -> bool)
    (os : list operation) (st : MoxieState) :
  perform_all FUNC Assert os (__mState FUNC) = Some st ->
  mockFlag (__mReset FUNC st) = 0%Z
  /\ scope (__mReset FUNC st) = ""
  /\ callFunc (__mReset FUNC st) = AddressOf ("__mCallFunc_" ++ FUNC)
  /\ stubFunc (__mReset FUNC st) = AddressOf ("__mStubFunc_" ++ FUNC)
  /\ __mReset FUNC st = __mState FUNC
  /\ perform_all FUNC Assert (os ++ [CallReset]) (__mState FUNC)
     = Some (__mState FUNC).
Proof.
  intros H. rewrite perform_all_app, H. repeat split.
Qed.

Lemma reset_restores_defaults_witness :
  let os := [CallEnable; CallSetScope "MATH"; CallSetCallFunc NULL;
             CallSetStubFunc (AddressOf "my_sqrt_returnFunc")] in
  let st := {| mockFlag := 1; scope := "MATH"; callFunc := NULL;
               stubFunc := AddressOf "my_sqrt_returnFunc" |} in
  perform_all "sqrt" Assert_debug os (__mState "sqrt") = Some st
  /\ __mReset "sqrt" st = __mState "sqrt".
Proof.
  split; [reflexivity | ].
  apply (reset_restores_defaults "sqrt" Assert_debug
           [CallEnable; CallSetScope "MATH"; CallSetCallFunc NULL;
            CallSetStubFunc (AddressOf "my_sqrt_returnFunc")]).
  reflexivity.
Defined.

(** Enabling, resetting and enabling again leaves the record that
    enabling alone leaves. *)
Lemma enable_reset_enable (FUNC : string) (Assert : Z -> bool) :
  perform_all FUNC Assert [CallEnable; CallReset; CallEnable]
    (__mState FUNC)
  = perform_all FUNC Assert [CallEnable] (__mState FUNC).
Proof. reflexivity. Qed.

(** C6 (enable sets the flag and nothing else): [__mEnable_FUNC] sets the
    flag to 1 and leaves the scope and both adapters as they were, in
    every state of the record. *)
Theorem enable_sets_only_the_flag (st : MoxieState) :
  mockFlag (__mEnable st) = 1%Z
  /\ scope (__mEnable st) = scope st
  /\ callFunc (__mEnable st) = callFunc st
  /\ stubFunc (__mEnable st) = stubFunc st.
Proof. repeat split. Qed.

(** A configuration made while enabled is still there after the record
    is enabled again, and is gone after a reset. *)
Lemma configuration_survives_enable (FUNC : string) (Assert : Z -> bool)
    (s : string) (f g : fptr) (st : MoxieState) :
  let configure :=
    [CallSetScope s; CallSetCallFunc f; CallSetStubFunc g] in
  let configured :=
    {| mockFlag := 1; scope := s; callFunc := f; stubFunc := g |} in
  perform_all FUNC Assert configure (__mEnable st) = Some configured ->
  perform_all FUNC Assert (configure ++ [CallEnable]) (__mEnable st)
  = Some configured
  /\ perform_all FUNC Assert (configure ++ [CallReset]) (__mEnable st)
     = Some (__mState FUNC).
Proof.
  intros configure configured H.
  rewrite !perform_all_app, H. split; reflexivity.
Qed.

(** The header's own [Assert] leaves no token. *)
Lemma Assert_default_is_empty (args : list tokens) :
  Assert_default args = [].
Proof. reflexivity. Qed.

(** C9 (setters while disabled, no Assert defined): with the header's own
    empty [Assert], calling the three setters while the flag is 0 stops
    nothing, and each stores its argument in its field and leaves the
    other fields as they were. *)
Theorem setters_while_disabled (st : MoxieState) (s : string)
    (f g : fptr) :
  mockFlag st = 0%Z ->
  __mSetScope Assert_empty s st
    = Some {| mockFlag := 0; scope := s;
              callFunc := callFunc st; stubFunc := stubFunc st |}
  /\ __mSetCallFunc Assert_empty f st
    = Some {| mockFlag := 0; scope := scope st;
              callFunc := f; stubFunc := stubFunc st |}
  /\ __mSetStubFunc Assert_empty g st
    = Some {| mockFlag := 0; scope := scope st;
              callFunc := callFunc st; stubFunc := g |}.
Proof.
  intros H. unfold __mSetScope, __mSetCallFunc, __mSetStubFunc,
    set_scope, set_callFunc, set_stubFunc, Assert_empty.
  rewrite H. repeat split.
Qed.

Lemma setters_while_disabled_witness :
  mockFlag (__mState "sqrt") = 0%Z
  /\ __mSetScope Assert_empty "MATH" (__mState "sqrt")
     = Some {| mockFlag := 0; scope := "MATH";
               callFunc := AddressOf "__mCallFunc_sqrt";
               stubFunc := AddressOf "__mStubFunc_sqrt" |}.
Proof.
  split; [reflexivity | ].
  apply (setters_while_disabled (__mState "sqrt") "MATH" NULL NULL).
  reflexivity.
Defined.

(** Where an [Assert] in the way of [assert] is defined, the same calls
    stop at the assertion. *)
Lemma setters_while_disabled_debug (st : MoxieState) (s : string)
    (f g : fptr) :
  mockFlag st = 0%Z ->
  __mSetScope Assert_debug s st = None
  /\ __mSetCallFunc Assert_debug f st = None
  /\ __mSetStubFunc Assert_debug g st = None.
Proof.
  intros H. unfold __mSetScope, __mSetCallFunc, __mSetStubFunc,
    Assert_debug.
  rewrite H. repeat split.
Qed.

(** * Further properties of the header *)

(** ** Counting and arithmetic *)





(** X3 (increment): on 0 to 31 [_M_INC] is the successor, except at 31,
    which it leaves at 31. *)
Theorem inc_saturates (n : nat) :
  n <= 31 -> _M_INC [numeral n] = [numeral (Nat.min (S n) 31)].
Proof.
  intros H.
  do 32 (destruct n as [|n]; [reflexivity | ]). lia.
Qed.

Lemma inc_saturates_witness :
  31 <= 31 /\ _M_INC [Num "31"] = [Num "31"].
Proof.
  split; [lia | ]. apply (inc_saturates 31). lia.
Defined.

(** X4 (decrement): on 0 to 31 [_M_DEC] is the predecessor, except at 0,
    which it leaves at 0. *)
Theorem dec_saturates (n : nat) :
  n <= 31 -> _M_DEC [numeral n] = [numeral (n - 1)].
Proof.
  intros H.
  do 32 (destruct n as [|n]; [reflexivity | ]). lia.
Qed.

Lemma dec_saturates_witness :
  0 <= 31 /\ _M_DEC [Num "0"] = [Num "0"].
Proof.
  split; [lia | ]. apply (dec_saturates 0). lia.
Defined.

(** X5 (increment and decrement undo each other inside the table): for
    [n] up to 30, decrementing the increment of [n] gives [n] back and
    incrementing the decrement of [n + 1] gives [n + 1] back.  At the two
    ends they do not: from 31 the round trip gives 30, from 0 it
    gives 1. *)
Theorem inc_dec_round_trip (n : nat) :
  n <= 30 ->
  _M_DEC (_M_INC [numeral n]) = [numeral n]
  /\ _M_INC (_M_DEC [numeral (S n)]) = [numeral (S n)]
  /\ _M_DEC (_M_INC [numeral 31]) = [numeral 30]
  /\ _M_INC (_M_DEC [numeral 0]) = [numeral 1].
Proof.
  intros H.
  do 31 (destruct n as [|n]; [repeat split | ]). lia.
Qed.

Lemma inc_dec_round_trip_witness :
  7 <= 30
  /\ _M_DEC (_M_INC [Num "7"]) = [Num "7"]
  /\ _M_INC (_M_DEC [Num "8"]) = [Num "8"].
Proof.
  split; [lia | ].
  split; apply (inc_dec_round_trip 7); lia.
Defined.

(** ** Boolean macros *)

(** X6 (conjunction and disjunction): on the tokens [0] and [1],
    [_M_AND(a)(b)] is the conjunction and [_M_OR(a)(b)] the disjunction
    of [a] and [b]. *)
Theorem and_or_truth_tables (a b : bool) :
  _M_AND (bit a) (bit b) = bit (a && b)
  /\ _M_OR (bit a) (bit b) = bit (a || b).
Proof. destruct a, b; split; reflexivity. Qed.

Lemma lookup_not (s : string) :
  lookup ("_M_NOT_" ++ s) meta_env
  = if String.eqb s "0"
    then Some (ObjectLike (_M_PROBE [Punct "~"])) else None.
Proof.
  change (lookup ("_M_NOT_" ++ s) meta_env)
    with (if String.eqb "0" s
          then Some (ObjectLike (_M_PROBE [Punct "~"])) else None).
  now rewrite String.eqb_sym.
Qed.

Lemma numeral_zero (n : nat) :
  String.eqb (NilEmpty.string_of_uint (Nat.to_uint n)) "0" = Nat.eqb n 0.
Proof.
  destruct n as [|n]; [reflexivity | ].
  apply String.eqb_neq. intros E.
  apply (f_equal NilEmpty.uint_of_string) in E.
  rewrite NilEmpty.usu in E. injection E as E.
  apply (f_equal Nat.of_uint) in E.
  rewrite DecimalNat.Unsigned.of_to in E. discriminate E.
Qed.

(** X7 (negation by probe): [_M_NOT] of a decimal number is [1] when the
    number is 0 and [0] for every other number, not only for 1. *)
Theorem not_of_number (n : nat) :
  _M_NOT [numeral n] = bit (Nat.eqb n 0).
Proof.
  unfold _M_NOT, _M_PCAT, numeral. cbn [rev app paste].
  unfold rescan_head. rewrite lookup_not, numeral_zero.
  destruct (Nat.eqb n 0); reflexivity.
Qed.

(** X8 (the primitive conditional): [_M_IF_(1)(t,e...)] is [t] and
    [_M_IF_(0)(t,e...)] is everything after [t], commas included. *)
Theorem if_selects (b : bool) (t : tokens) (es : list tokens) :
  call meta_env (_M_IF_ (bit b)) (t :: es) = if b then t else commas es.
Proof. destruct b; reflexivity. Qed.

(** X9 (conditional bodies): for both truth values [_M_WHEN(p)(body)]
    and [_M_UNLESS(p)(body)] neither keep nor drop the body: the name
    built for the conditional is no macro, and the body stays in its
    parentheses behind it. *)
Theorem when_unless_select_nothing (b : bool) (body : tokens) :
  let name := Id (if b then "_M_IF__M_NEGATE0" else "_M_IF__M_NEGATE1") in
  _M_WHEN (bit b) [body]
  = name :: call_tokens [[Id "_M_EXPAND"]; [Id "_M_IGNORE"]]
         ++ call_tokens [body]
  /\ _M_UNLESS (bit b) [body]
     = name :: call_tokens [[Id "_M_IGNORE"]; [Id "_M_EXPAND"]]
            ++ call_tokens [body].
Proof. destruct b; split; reflexivity. Qed.

(** ** Detection macros *)

Lemma split_args_aux_single (ts : tokens) :
  forall d cur rest,
    single_arg d ts = true ->
    split_args_aux d cur (ts ++ rest)
    = split_args_aux 0 (rev ts ++ cur) rest.
Proof.
  induction ts as [|t ts IH]; intros d cur rest H; simpl in *.
  - apply Nat.eqb_eq in H. now subst.
  - destruct (is_punct "," t && Nat.eqb d 0); [discriminate H | ].
    destruct (is_punct "(" t).
    + rewrite (IH _ _ _ H). now rewrite <- app_assoc.
    + destruct (is_punct ")" t).
      * destruct d as [|d]; [discriminate H | ].
        simpl. rewrite (IH _ _ _ H). now rewrite <- app_assoc.
      * rewrite (IH _ _ _ H). now rewrite <- app_assoc.
Qed.

Lemma check_of_single_arg (x : tokens) :
  single_arg 0 x = true -> _M_CHECK x = [Num "0"].
Proof.
  intros H. unfold _M_CHECK, split_args.
  rewrite (split_args_aux_single x 0 [] _ H). reflexivity.
Qed.

(** X10 (probe and check): for tokens [x] that make one argument,
    [_M_CHECK(x)] is [0] and [_M_CHECK(_M_PROBE(x))] is [1]. *)
Theorem check_and_probe (x : tokens) :
  single_arg 0 x = true ->
  _M_CHECK x = [Num "0"] /\ _M_CHECK (_M_PROBE x) = [Num "1"].
Proof.
  intros H. split; [now apply check_of_single_arg | ].
  unfold _M_CHECK, _M_PROBE, split_args.
  rewrite <- app_assoc.
  rewrite (split_args_aux_single x 0 [] _ H). reflexivity.
Qed.

Lemma check_and_probe_witness :
  single_arg 0 [Id "f"; LP; Id "a"; Comma; Id "b"; RP] = true
  /\ _M_CHECK (_M_PROBE [Id "f"; LP; Id "a"; Comma; Id "b"; RP])
     = [Num "1"].
Proof.
  split; [reflexivity | ].
  apply (check_and_probe [Id "f"; LP; Id "a"; Comma; Id "b"; RP]).
  reflexivity.
Defined.

Lemma close_group_nested (ts : tokens) :
  forall d d' acc rest,
    nesting d ts = Some d' ->
    close_group d acc (ts ++ rest) = close_group d' (rev ts ++ acc) rest.
Proof.
  induction ts as [|t ts IH]; intros d d' acc rest H; simpl in *.
  - now inversion H.
  - destruct (is_punct ")" t) eqn:Hr.
    + assert (Hl : is_punct "(" t = false).
      { destruct t; try reflexivity. simpl in *.
        apply String.eqb_eq in Hr. now subst. }
      rewrite Hl in H. destruct d as [|d]; [discriminate H | ].
      rewrite (IH _ _ _ _ H). now rewrite <- app_assoc.
    + destruct (is_punct "(" t).
      * rewrite (IH _ _ _ _ H). now rewrite <- app_assoc.
      * rewrite (IH _ _ _ _ H). now rewrite <- app_assoc.
Qed.

(** X11 (leading parenthesis, found): [_M_IS_PAREN] is [1] on tokens
    that begin with a parenthesised group, whatever is inside the group,
    commas included, and whatever follows it. *)
Theorem is_paren_of_group (inner rest : tokens) :
  balanced inner = true ->
  _M_IS_PAREN (LP :: inner ++ RP :: rest) = [Num "1"].
Proof.
  intros H. apply balanced_nesting in H.
  unfold _M_IS_PAREN, rescan_head.
  change (lookup "_M_IS_PAREN_PROBE" meta_env)
    with (Some (FunctionLike _M_IS_PAREN_PROBE)).
  unfold take_group.
  change (is_punct "(" LP) with true. cbv iota.
  rewrite (close_group_nested inner 0 0 [] _ H).
  reflexivity.
Qed.

Lemma is_paren_of_group_witness :
  balanced [Id "a"; Comma; LP; Id "b"; RP] = true
  /\ _M_IS_PAREN
       (LP :: [Id "a"; Comma; LP; Id "b"; RP] ++ RP :: [Id "c"; Comma])
     = [Num "1"].
Proof.
  split; [reflexivity | ].
  apply (is_paren_of_group [Id "a"; Comma; LP; Id "b"; RP] [Id "c"; Comma]).
  reflexivity.
Defined.

(** X12 (leading parenthesis, absent): [_M_IS_PAREN] is [0] on tokens
    that make one argument and do not begin with a parenthesis, the
    empty argument among them. *)
Theorem is_paren_of_other (x : tokens) :
  single_arg 0 x = true ->
  hd_error x <> Some LP ->
  _M_IS_PAREN x = [Num "0"].
Proof.
  intros H Hhd.
  assert (Hg : take_group x = None).
  { destruct x as [|t x]; [reflexivity | ].
    unfold take_group. destruct (is_punct "(" t) eqn:E; [ | reflexivity].
    exfalso. apply Hhd. destruct t; try discriminate E.
    simpl in E. apply String.eqb_eq in E. now subst. }
  unfold _M_IS_PAREN, rescan_head.
  change (lookup "_M_IS_PAREN_PROBE" meta_env)
    with (Some (FunctionLike _M_IS_PAREN_PROBE)).
  rewrite Hg.
  apply (check_of_single_arg (Id "_M_IS_PAREN_PROBE" :: x)). exact H.
Qed.

Lemma is_paren_of_other_witness :
  single_arg 0 [Id "int"; Punct "*"] = true
  /\ hd_error [Id "int"; Punct "*"] <> Some LP
  /\ _M_IS_PAREN [Id "int"; Punct "*"] = [Num "0"].
Proof.
  split; [reflexivity | ]. split; [discriminate | ].
  apply (is_paren_of_other [Id "int"; Punct "*"]);
    [reflexivity | discriminate].
Defined.

(** ** Comparison macros *)

Lemma lookup_compare (s : string) :
  lookup ("_M_COMPARE_" ++ s) meta_env
  = if String.eqb s "void"
    then Some (FunctionLike _M_COMPARE_void) else None.
Proof.
  change (lookup ("_M_COMPARE_" ++ s) meta_env)
    with (if String.eqb "void" s
          then Some (FunctionLike _M_COMPARE_void) else None).
  now rewrite String.eqb_sym.
Qed.

Lemma is_comparable_identifier (s : string) :
  _M_IS_COMPARABLE [Id s] = bit (String.eqb s "void").
Proof.
  unfold _M_IS_COMPARABLE, _M_DCAT, _M_PCAT. cbn [rev app paste].
  unfold rescan_head at 1. rewrite lookup_compare.
  destruct (String.eqb s "void"); reflexivity.
Qed.

(** X13 (comparable names): an identifier is comparable exactly when it
    is [void], the one name the header defines a [_M_COMPARE_] macro
    for. *)
Theorem only_void_is_comparable (s : string) :
  _M_IS_COMPARABLE [Id s] = [Num "1"] <-> s = "void".
Proof.
  rewrite is_comparable_identifier.
  destruct (String.eqb_spec s "void") as [E | E]; simpl; split;
    intros H; try reflexivity; try assumption;
    try discriminate H; contradiction.
Qed.

(** X14 (inequality of identifiers): [_M_NOT_EQUAL(s,t)] is [0] when
    both identifiers are [void] and [1] in every other case, also when
    [s] and [t] are the same identifier. *)
Theorem not_equal_identifiers (s t : string) :
  _M_NOT_EQUAL [Id s] [Id t]
  = bit (negb (String.eqb s "void" && String.eqb t "void")).
Proof.
  unfold _M_NOT_EQUAL. rewrite !is_comparable_identifier.
  destruct (String.eqb_spec s "void") as [-> | _];
    destruct (String.eqb_spec t "void") as [-> | _]; reflexivity.
Qed.

(** X15 (equality of identifiers): [_M_EQUAL(s,t)] is never [0] or [1]:
    it is the identifier [_M_NEGATE0] when both are [void] and
    [_M_NEGATE1] otherwise. *)
Theorem equal_identifiers (s t : string) :
  _M_EQUAL [Id s] [Id t]
  = [Id (if String.eqb s "void" && String.eqb t "void"
         then "_M_NEGATE0" else "_M_NEGATE1")].
Proof.
  unfold _M_EQUAL, _M_NOT_EQUAL. rewrite !is_comparable_identifier.
  destruct (String.eqb_spec s "void") as [-> | _];
    destruct (String.eqb_spec t "void") as [-> | _]; reflexivity.
Qed.

(** ** The arity dispatcher, further *)



(** X17 (the three projections): for one to eight descriptors the
    type-only list is the type of each descriptor, the declaration list
    the type followed by the name of each, the call list the name of
    each, in the order of the descriptors with a comma between two. *)
Theorem projections_up_to_eight (FUNC : string) (ps : list param) :
  1 <= length ps <= 8 ->
  _M_PARAMS_PROTOTYPE FUNC (map Some ps)
  = commas (map (fun p => arg 0 (param_args p)) ps)
  /\ _M_PARAMS_DECLARATION FUNC (map Some ps)
     = commas
         (map (fun p => arg 0 (param_args p) ++ arg 1 (param_args p)) ps)
  /\ _M_PARAMS_CALL FUNC (map Some ps)
     = commas (map (fun p => arg 1 (param_args p)) ps).
Proof.
  intros H.
  rewrite (params_prototype_up_to_eight FUNC ps H),
    (params_declaration_up_to_eight FUNC ps H),
    (params_call_up_to_eight FUNC ps H).
  unfold one_entry_each.
  repeat split; f_equal; apply map_ext; intros p;
    now rewrite ?param_type_of_descriptor, ?param_name_of_descriptor.
Qed.

Lemma projections_up_to_eight_witness :
  let ps := [M_PARAM_DOUBLE [Id "double"] [Id "x"];
             M_PARAM_CHAR_PTR [Id "char"; Punct "*"] [Id "s"]] in
  1 <= length ps <= 8
  /\ _M_PARAMS_DECLARATION "pow" (map Some ps)
     = [Id "double"; Id "x"; Comma; Id "char"; Punct "*"; Id "s"].
Proof.
  cbv zeta. split; [simpl; lia | ].
  apply (projections_up_to_eight "pow"
           [M_PARAM_DOUBLE [Id "double"] [Id "x"];
            M_PARAM_CHAR_PTR [Id "char"; Punct "*"] [Id "s"]]).
  simpl; lia.
Defined.

(** X18 (body of the call adapter): for one to eight descriptors the
    body of [__mCallFunc_FUNC] is the statement of each descriptor, in
    the order of the descriptors, and a last semicolon. *)
Theorem call_adapter_body_up_to_eight (FUNC : string) (ps : list param) :
  1 <= length ps <= 8 ->
  mCallFunc_body FUNC (map Some ps)
  = concat (map (fun p => _M_PARAM_CALLBACK (Some p)) ps) ++ [Semi].
Proof. exact (call_adapter_up_to_eight FUNC ps). Qed.

Lemma call_adapter_body_up_to_eight_witness :
  let ps := [M_PARAM_INT [Id "int"] [Id "n"];
             M_PARAM_IGNORE [Id "void"; Punct "*"] [Id "ctx"];
             M_PARAM_OUT_PTR [Id "int"; Punct "*"] [Id "out"]] in
  1 <= length ps <= 8
  /\ mCallFunc_body "f" (map Some ps)
     = actualCall_stmt "withIntParameters" [[Str "n"]; [Id "n"]]
       ++ actualCall_stmt "withOutputParameter" [[Str "out"]; [Id "out"]]
       ++ [Semi].
Proof.
  cbv zeta. split; [simpl; lia | ].
  apply (call_adapter_body_up_to_eight "f"
           [M_PARAM_INT [Id "int"] [Id "n"];
            M_PARAM_IGNORE [Id "void"; Punct "*"] [Id "ctx"];
            M_PARAM_OUT_PTR [Id "int"; Punct "*"] [Id "out"]]).
  simpl; lia.
Defined.

(** X19 (nine to thirty-two descriptors): whatever the callback, the
    expansion of [_M_PARAMS] over nine to thirty-two descriptors holds
    the identifier [_M_PARAMS_7CALLBACK]. *)
Theorem params_nine_to_thirty_two (CALLBACK FUNC : string)
    (ps : list param) :
  9 <= length ps <= 32 ->
  In (Id "_M_PARAMS_7CALLBACK") (_M_PARAMS CALLBACK FUNC (map Some ps)).
Proof. exact (params_from_nine_on CALLBACK FUNC ps). Qed.

Lemma params_nine_to_thirty_two_witness :
  9 <= length nine_ints <= 32
  /\ In (Id "_M_PARAMS_7CALLBACK")
       (_M_PARAMS "_M_PARAM_CALL" "f" (map Some nine_ints)).
Proof.
  split; [simpl; lia | ].
  apply (params_nine_to_thirty_two "_M_PARAM_CALL" "f" nine_ints).
  simpl; lia.
Defined.

(** X20 (more than thirty-two descriptors): with a thirty-third
    descriptor [p] no template is selected: [_M_PARAMS_] is pasted to
    the suffix of [p], and the call group with the callback, the function
    name, the index 0 and every descriptor stays behind it,
    unprojected. *)
Theorem params_beyond_thirty_two (CALLBACK FUNC : string) (ps : list param)
    (p : param) :
  nth_error ps 32 = Some p ->
  _M_PARAMS CALLBACK FUNC (map Some ps)
  = Id ("_M_PARAMS_" ++ param_suffix p) :: call_tokens (param_args p)
    ++ call_tokens
         ([Id CALLBACK] :: [Id FUNC] :: [Num "0"]
          :: map marg_tokens (map Some ps)).
Proof.
  intros H. unfold _M_PARAMS.
  assert (Hv : variadic (map Some ps) = map Some ps).
  { destruct ps; [discriminate H | reflexivity]. }
  rewrite Hv.
  assert (Hn : _M_N_VA_ARGS (map marg_tokens (map Some ps))
               = marg_tokens (Some p)).
  { unfold _M_N_VA_ARGS, _M_N_VA_ARGS_, arg.
    rewrite app_nth1.
    - apply nth_error_nth. now rewrite !nth_error_map, H.
    - rewrite !length_map. apply nth_error_Some. now rewrite H. }
  rewrite Hn. reflexivity.
Qed.

Lemma params_beyond_thirty_two_witness :
  let ps := repeat (M_PARAM_INT [Id "int"] [Id "a"]) 32
            ++ [M_PARAM_BOOL [Id "int"] [Id "z"]] in
  nth_error ps 32 = Some (M_PARAM_BOOL [Id "int"] [Id "z"])
  /\ hd_error (_M_PARAMS "_M_PARAM_CALL" "f" (map Some ps))
     = Some (Id "_M_PARAMS__BOOL").
Proof.
  cbv zeta. split; [reflexivity | ].
  rewrite (params_beyond_thirty_two "_M_PARAM_CALL" "f"
             (repeat (M_PARAM_INT [Id "int"] [Id "a"]) 32
              ++ [M_PARAM_BOOL [Id "int"] [Id "z"]])
             (M_PARAM_BOOL [Id "int"] [Id "z"]) eq_refl).
  reflexivity.
Defined.

(** X21 (no descriptor): a call without any descriptor is the call with
    one empty argument; each projection is then the bare name of its
    per-descriptor macro, not an empty list. *)
Theorem params_without_descriptor (FUNC : string) :
  _M_PARAMS_PROTOTYPE FUNC [] = [Id "_M_PARAM_TYPE"]
  /\ _M_PARAMS_DECLARATION FUNC []
     = [Id "_M_PARAM_TYPE"; Id "_M_PARAM_NAME"]
  /\ _M_PARAMS_CALL FUNC [] = [Id "_M_PARAM_NAME"]
  /\ _M_PARAMS_FUNC_IMPL FUNC [] = [Id "_M_PARAM_CALLBACK"]
  /\ forall CALLBACK,
       _M_PARAMS CALLBACK FUNC [] = _M_PARAMS CALLBACK FUNC [None].
Proof. repeat split. Qed.

(** X22 (return type and return callback): for every return descriptor
    [_M_RETURN_TYPE] and [_M_RETURN_CALLBACK] build a name with two
    underscores before the kind, which is no macro of the header; the
    descriptor stays behind the name, so neither the type nor the
    statement that returns the configured value is produced. *)
Theorem return_macros_reach_no_macro (RET : ret) :
  let group := match ret_args RET with
               | Some a => call_tokens a
               | None => []
               end in
  _M_RETURN_TYPE RET = Id ("_M_RETURN_TYPE_" ++ ret_suffix RET) :: group
  /\ _M_RETURN_CALLBACK RET
     = Id ("_M_RETURN_CALLBACK_" ++ ret_suffix RET) :: group
  /\ lookup ("_M_RETURN_TYPE_" ++ ret_suffix RET) ret_env = None
  /\ lookup ("_M_RETURN_CALLBACK_" ++ ret_suffix RET) ret_env = None.
Proof. exact (return_macros_build_no_macro RET). Qed.

(** ** Names *)





(** ** The state record, further *)

(** X25 (the flag is 0 or 1): after every sequence of accessor calls that
    runs to its end from the initial record, the flag is 0 or 1,
    whatever [Assert] does. *)
Theorem flag_is_zero_or_one (FUNC : string) (Assert : Z -> bool)
    (os : list operation) (st : MoxieState) :
  perform_all FUNC Assert os (__mState FUNC) = Some st ->
  mockFlag st = 0%Z \/ mockFlag st = 1%Z.
Proof.
  assert (G : forall os s,
             (mockFlag s = 0%Z \/ mockFlag s = 1%Z) ->
             perform_all FUNC Assert os s = Some st ->
             mockFlag st = 0%Z \/ mockFlag st = 1%Z).
  { clear os. induction os as [|o os IH]; intros s Hs H; simpl in H.
    - now inversion H; subst.
    - destruct (perform FUNC Assert o s) as [s'|] eqn:E; [ | discriminate H].
      apply (IH s'); [ | exact H].
      destruct o; simpl in E;
        unfold __mSetScope, __mSetCallFunc, __mSetStubFunc in E;
        try (destruct (Assert (mockFlag s)); [ | discriminate E]);
        inversion E; subst; simpl; auto. }
  intros H. apply (G os (__mState FUNC)); [left; reflexivity | exact H].
Qed.

Lemma flag_is_zero_or_one_witness :
  perform_all "sqrt" Assert_debug
    [CallEnable; CallSetScope "MATH"; CallReset; CallEnable]
    (__mState "sqrt")
  = Some {| mockFlag := 1; scope := "";
            callFunc := AddressOf "__mCallFunc_sqrt";
            stubFunc := AddressOf "__mStubFunc_sqrt" |}
  /\ (mockFlag {| mockFlag := 1; scope := "";
                  callFunc := AddressOf "__mCallFunc_sqrt";
                  stubFunc := AddressOf "__mStubFunc_sqrt" |} = 0%Z
      \/ mockFlag {| mockFlag := 1; scope := "";
                     callFunc := AddressOf "__mCallFunc_sqrt";
                     stubFunc := AddressOf "__mStubFunc_sqrt" |} = 1%Z).
Proof.
  split; [reflexivity | ].
  apply (flag_is_zero_or_one "sqrt" Assert_debug
           [CallEnable; CallSetScope "MATH"; CallReset; CallEnable]).
  reflexivity.
Defined.

(** X26 (configuring while enabled): with an [Assert] that lets a flag
    of 1 pass, every sequence of accessor calls without a reset, started
    on an enabled record, runs to its end and leaves the record
    enabled. *)
Theorem enabled_configuration_passes (FUNC : string) (Assert : Z -> bool)
    (os : list operation) (st : MoxieState) :
  Assert 1%Z = true ->
  mockFlag st = 1%Z ->
  forallb (fun o => negb (is_reset o)) os = true ->
  exists st', perform_all FUNC Assert os st = Some st'
              /\ mockFlag st' = 1%Z.
Proof.
  intros HA. revert st.
  induction os as [|o os IH]; intros st Hst Hos; simpl in *.
  - now exists st.
  - apply andb_prop in Hos. destruct Hos as [Ho Hos].
    destruct o; simpl in *; try discriminate Ho;
      unfold __mSetScope, __mSetCallFunc, __mSetStubFunc;
      rewrite ?Hst, ?HA; apply IH; auto.
Qed.

Lemma enabled_configuration_passes_witness :
  let os := [CallSetScope "MATH"; CallEnable; CallSetCallFunc NULL] in
  Assert_debug 1%Z = true
  /\ mockFlag (__mEnable (__mState "sqrt")) = 1%Z
  /\ forallb (fun o => negb (is_reset o)) os = true
  /\ exists st', perform_all "sqrt" Assert_debug os
                   (__mEnable (__mState "sqrt")) = Some st'
                 /\ mockFlag st' = 1%Z.
Proof.
  cbv zeta. repeat (split; [reflexivity | ]).
  apply (enabled_configuration_passes "sqrt" Assert_debug
           [CallSetScope "MATH"; CallEnable; CallSetCallFunc NULL]);
    reflexivity.
Defined.

(** X27 (configuring after a reset): with an [Assert] that stops on a
    flag of 0, a setter called right after a reset stops the program,
    whatever ran before the reset; so does a setter called first on the
    initial record. *)
Theorem setter_after_reset_stops (FUNC : string) (Assert : Z -> bool)
    (os : list operation) (st : MoxieState) (o : operation) :
  Assert 0%Z = false ->
  is_setter o = true ->
  perform_all FUNC Assert os (__mState FUNC) = Some st ->
  perform_all FUNC Assert (os ++ [CallReset; o]) (__mState FUNC) = None
  /\ perform FUNC Assert o (__mState FUNC) = None.
Proof.
  intros HA Ho H. rewrite perform_all_app, H.
  destruct o; try discriminate Ho; simpl;
    unfold __mSetScope, __mSetCallFunc, __mSetStubFunc; simpl;
    rewrite HA; split; reflexivity.
Qed.

Lemma setter_after_reset_stops_witness :
  Assert_debug 0%Z = false
  /\ is_setter (CallSetScope "MATH") = true
  /\ perform_all "sqrt" Assert_debug
       ([CallEnable; CallSetCallFunc NULL]
        ++ [CallReset; CallSetScope "MATH"]) (__mState "sqrt") = None.
Proof.
  split; [reflexivity | ]. split; [reflexivity | ].
  apply (setter_after_reset_stops "sqrt" Assert_debug
           [CallEnable; CallSetCallFunc NULL]
           {| mockFlag := 1; scope := ""; callFunc := NULL;
              stubFunc := AddressOf "__mStubFunc_sqrt" |}
           (CallSetScope "MATH")); reflexivity.
Defined.

(** X28 (setters of different fields commute): two setters of different
    fields give the same outcome in either order, in every state and for
    every [Assert]. *)
Theorem setters_commute (FUNC : string) (Assert : Z -> bool)
    (s : string) (f g : fptr) (st : MoxieState) :
  perform_all FUNC Assert [CallSetScope s; CallSetCallFunc f] st
  = perform_all FUNC Assert [CallSetCallFunc f; CallSetScope s] st
  /\ perform_all FUNC Assert [CallSetScope s; CallSetStubFunc g] st
     = perform_all FUNC Assert [CallSetStubFunc g; CallSetScope s] st
  /\ perform_all FUNC Assert [CallSetCallFunc f; CallSetStubFunc g] st
     = perform_all FUNC Assert [CallSetStubFunc g; CallSetCallFunc f] st.
Proof.
  simpl. unfold __mSetScope, __mSetCallFunc, __mSetStubFunc.
  destruct (Assert (mockFlag st)) eqn:E; simpl; rewrite ?E;
    repeat split; reflexivity.
Qed.

(** X29 (the last setting stays): calling a setter twice gives the
    outcome of the second call alone, in every state and for every
    [Assert]. *)
Theorem last_write_wins (FUNC : string) (Assert : Z -> bool)
    (s1 s2 : string) (f1 f2 g1 g2 : fptr) (st : MoxieState) :
  perform_all FUNC Assert [CallSetScope s1; CallSetScope s2] st
  = perform_all FUNC Assert [CallSetScope s2] st
  /\ perform_all FUNC Assert [CallSetCallFunc f1; CallSetCallFunc f2] st
     = perform_all FUNC Assert [CallSetCallFunc f2] st
  /\ perform_all FUNC Assert [CallSetStubFunc g1; CallSetStubFunc g2] st
     = perform_all FUNC Assert [CallSetStubFunc g2] st.
Proof.
  simpl. unfold __mSetScope, __mSetCallFunc, __mSetStubFunc.
  destruct (Assert (mockFlag st)) eqn:E; simpl; rewrite ?E;
    repeat split; reflexivity.
Qed.
